(** * counterblockd: the versioned state store and its rollback engine

    A shallow embedding of [lib/database.py]: the Mongo collections are
    lists of documents in natural (insertion) order, the module-level
    [config.state] dictionary and [cache.blockinfo_cache] are fields of an
    explicit world, and every function of the module is a program in a
    small state-and-exception monad over that world.  [get_connection]
    and [init_base_indexes] only open the connection and declare indexes;
    index constraints are not part of the model. *)

From Stdlib Require Import ZArith List String Bool Lia.
Import ListNotations.
Open Scope Z_scope.

(** ** Documents *)

(** Attribute values the code under study stores in documents. *)
Inductive value : Type :=
| VNone
| VBool (b : bool)
| VInt (z : Z)
| VStr (s : string).

(** A schemaless bag of attributes (the keys the code never looks at). *)
Definition document : Type := list (string * value).

Definition ObjectId : Type := nat.

(** A document of [processed_blocks]. *)
Record block : Type := mk_block {
  block_index : Z;
  block_time : Z;
  block_fields : document
}.

(** A document of [balance_changes], [trades], [asset_marketcap_history]
    or [transaction_stats]: the code only reads its ["block_index"]. *)
Record scoped_doc : Type := mk_scoped {
  sd_block_index : Z;
  sd_fields : document
}.

(** One version of a tracked asset: a full snapshot of its attributes
    with the block it became effective at. *)
Record version : Type := mk_version {
  asset : string;
  _at_block : Z;
  attributes : document
}.

(** A document of [tracked_assets]: the flat Python dictionary
    [{'_id', 'asset', ..., '_at_block', '_history'}], the current
    attributes grouped under [current].  [_history] is in list order,
    oldest first, as [append] and [pop] leave it. *)
Record tracked_asset : Type := mk_asset {
  _id : ObjectId;
  current : version;
  _history : list version
}.

(** The document of [app_config]. *)
Record app_config_doc : Type := mk_app_config {
  ac_id : ObjectId;
  db_version : Z;
  running_testnet : bool;
  counterpartyd_db_version_major : option Z;
  counterpartyd_db_version_minor : option Z;
  counterpartyd_running_testnet : option bool;
  last_block_assets_compiled : Z
}.

(** Documents that answer the query key ["block_index"]. *)
Class BlockScoped (A : Type) : Type := get_block_index : A -> Z.
#[global] Instance BlockScoped_block : BlockScoped block := block_index.
#[global] Instance BlockScoped_scoped_doc : BlockScoped scoped_doc := sd_block_index.

(** ** The database: every collection [init_base_indexes] declares, plus
    [app_config] and the [pair_market_info] that [reset_db_state] drops. *)
Record MongoDB : Type := mk_db {
  processed_blocks : list block;
  tracked_assets : list tracked_asset;
  trades : list scoped_doc;
  balance_changes : list scoped_doc;
  asset_market_info : list document;
  asset_marketcap_history : list scoped_doc;
  pair_market_info : list document;
  asset_pair_market_info : list document;
  asset_extended_info : list document;
  btc_open_orders : list document;
  transaction_stats : list scoped_doc;
  wallet_stats : list document;
  app_config : list app_config_doc;
  preferences : list document;
  login_history : list document;
  chat_handles : list document;
  chat_history : list document;
  feeds : list document;
  mempool : list document
}.

(** [config.state]. [my_latest_block] holds the ['block_index'] entry of
    the dictionary stored under that key. *)
Record State : Type := mk_state {
  my_latest_block : Z;
  last_message_index : Z;
  caught_up : bool
}.

(** The constants of [lib/config.py] the module reads. *)
Record Config : Type := mk_config {
  BLOCK_FIRST : Z;
  DB_VERSION : Z;
  TESTNET : bool;
  XCP : string;
  BTC : string;
  LATEST_BLOCK_INIT : block
}.

(** Python exceptions the module can raise. [Exception_no_block i] is
    [Exception("Can't roll back to specified block index: %i doesn't
    exist in database" % i)]. *)
Inductive exn : Type :=
| AssertionError
| Exception_no_block (i : Z)
| TypeError
| IndexError.

(** ** Collection updates *)

Definition with_processed_blocks (f : list block -> list block)
    (db : MongoDB) : MongoDB :=
  mk_db (f (processed_blocks db)) (tracked_assets db) (trades db)
        (balance_changes db) (asset_market_info db)
        (asset_marketcap_history db) (pair_market_info db)
        (asset_pair_market_info db) (asset_extended_info db)
        (btc_open_orders db) (transaction_stats db) (wallet_stats db)
        (app_config db) (preferences db) (login_history db) (chat_handles db)
        (chat_history db) (feeds db) (mempool db).

Definition with_tracked_assets (f : list tracked_asset -> list tracked_asset)
    (db : MongoDB) : MongoDB :=
  mk_db (processed_blocks db) (f (tracked_assets db)) (trades db)
        (balance_changes db) (asset_market_info db)
        (asset_marketcap_history db) (pair_market_info db)
        (asset_pair_market_info db) (asset_extended_info db)
        (btc_open_orders db) (transaction_stats db) (wallet_stats db)
        (app_config db) (preferences db) (login_history db) (chat_handles db)
        (chat_history db) (feeds db) (mempool db).

Definition with_trades (f : list scoped_doc -> list scoped_doc)
    (db : MongoDB) : MongoDB :=
  mk_db (processed_blocks db) (tracked_assets db) (f (trades db))
        (balance_changes db) (asset_market_info db)
        (asset_marketcap_history db) (pair_market_info db)
        (asset_pair_market_info db) (asset_extended_info db)
        (btc_open_orders db) (transaction_stats db) (wallet_stats db)
        (app_config db) (preferences db) (login_history db) (chat_handles db)
        (chat_history db) (feeds db) (mempool db).

Definition with_balance_changes (f : list scoped_doc -> list scoped_doc)
    (db : MongoDB) : MongoDB :=
  mk_db (processed_blocks db) (tracked_assets db) (trades db)
        (f (balance_changes db)) (asset_market_info db)
        (asset_marketcap_history db) (pair_market_info db)
        (asset_pair_market_info db) (asset_extended_info db)
        (btc_open_orders db) (transaction_stats db) (wallet_stats db)
        (app_config db) (preferences db) (login_history db) (chat_handles db)
        (chat_history db) (feeds db) (mempool db).

Definition with_asset_market_info (f : list document -> list document)
    (db : MongoDB) : MongoDB :=
  mk_db (processed_blocks db) (tracked_assets db) (trades db)
        (balance_changes db) (f (asset_market_info db))
        (asset_marketcap_history db) (pair_market_info db)
        (asset_pair_market_info db) (asset_extended_info db)
        (btc_open_orders db) (transaction_stats db) (wallet_stats db)
        (app_config db) (preferences db) (login_history db) (chat_handles db)
        (chat_history db) (feeds db) (mempool db).

Definition with_asset_marketcap_history (f : list scoped_doc -> list scoped_doc)
    (db : MongoDB) : MongoDB :=
  mk_db (processed_blocks db) (tracked_assets db) (trades db)
        (balance_changes db) (asset_market_info db)
        (f (asset_marketcap_history db)) (pair_market_info db)
        (asset_pair_market_info db) (asset_extended_info db)
        (btc_open_orders db) (transaction_stats db) (wallet_stats db)
        (app_config db) (preferences db) (login_history db) (chat_handles db)
        (chat_history db) (feeds db) (mempool db).

Definition with_pair_market_info (f : list document -> list document)
    (db : MongoDB) : MongoDB :=
  mk_db (processed_blocks db) (tracked_assets db) (trades db)
        (balance_changes db) (asset_market_info db)
        (asset_marketcap_history db) (f (pair_market_info db))
        (asset_pair_market_info db) (asset_extended_info db)
        (btc_open_orders db) (transaction_stats db) (wallet_stats db)
        (app_config db) (preferences db) (login_history db) (chat_handles db)
        (chat_history db) (feeds db) (mempool db).

Definition with_asset_extended_info (f : list document -> list document)
    (db : MongoDB) : MongoDB :=
  mk_db (processed_blocks db) (tracked_assets db) (trades db)
        (balance_changes db) (asset_market_info db)
        (asset_marketcap_history db) (pair_market_info db)
        (asset_pair_market_info db) (f (asset_extended_info db))
        (btc_open_orders db) (transaction_stats db) (wallet_stats db)
        (app_config db) (preferences db) (login_history db) (chat_handles db)
        (chat_history db) (feeds db) (mempool db).

Definition with_btc_open_orders (f : list document -> list document)
    (db : MongoDB) : MongoDB :=
  mk_db (processed_blocks db) (tracked_assets db) (trades db)
        (balance_changes db) (asset_market_info db)
        (asset_marketcap_history db) (pair_market_info db)
        (asset_pair_market_info db) (asset_extended_info db)
        (f (btc_open_orders db)) (transaction_stats db) (wallet_stats db)
        (app_config db) (preferences db) (login_history db) (chat_handles db)
        (chat_history db) (feeds db) (mempool db).

Definition with_transaction_stats (f : list scoped_doc -> list scoped_doc)
    (db : MongoDB) : MongoDB :=
  mk_db (processed_blocks db) (tracked_assets db) (trades db)
        (balance_changes db) (asset_market_info db)
        (asset_marketcap_history db) (pair_market_info db)
        (asset_pair_market_info db) (asset_extended_info db)
        (btc_open_orders db) (f (transaction_stats db)) (wallet_stats db)
        (app_config db) (preferences db) (login_history db) (chat_handles db)
        (chat_history db) (feeds db) (mempool db).

Definition with_wallet_stats (f : list document -> list document)
    (db : MongoDB) : MongoDB :=
  mk_db (processed_blocks db) (tracked_assets db) (trades db)
        (balance_changes db) (asset_market_info db)
        (asset_marketcap_history db) (pair_market_info db)
        (asset_pair_market_info db) (asset_extended_info db)
        (btc_open_orders db) (transaction_stats db) (f (wallet_stats db))
        (app_config db) (preferences db) (login_history db) (chat_handles db)
        (chat_history db) (feeds db) (mempool db).

Definition with_app_config (f : list app_config_doc -> list app_config_doc)
    (db : MongoDB) : MongoDB :=
  mk_db (processed_blocks db) (tracked_assets db) (trades db)
        (balance_changes db) (asset_market_info db)
        (asset_marketcap_history db) (pair_market_info db)
        (asset_pair_market_info db) (asset_extended_info db)
        (btc_open_orders db) (transaction_stats db) (wallet_stats db)
        (f (app_config db)) (preferences db) (login_history db)
        (chat_handles db) (chat_history db) (feeds db) (mempool db).

Definition with_feeds (f : list document -> list document)
    (db : MongoDB) : MongoDB :=
  mk_db (processed_blocks db) (tracked_assets db) (trades db)
        (balance_changes db) (asset_market_info db)
        (asset_marketcap_history db) (pair_market_info db)
        (asset_pair_market_info db) (asset_extended_info db)
        (btc_open_orders db) (transaction_stats db) (wallet_stats db)
        (app_config db) (preferences db) (login_history db) (chat_handles db)
        (chat_history db) (f (feeds db)) (mempool db).

(** ** Mongo operations on one collection *)

Inductive direction : Type := ASCENDING | DESCENDING.

Section Collection.
Context {A : Type}.

(** [find(q)]: the matching documents, in natural order. *)
Definition find (q : A -> bool) (c : list A) : list A := filter q c.

(** [find_one(q)]: the first matching document, [None] when there is none. *)
Definition find_one (q : A -> bool) (c : list A) : option A := List.find q c.

(** [remove(q)]: every matching document goes. *)
Definition remove (q : A -> bool) (c : list A) : list A :=
  filter (fun d => negb (q d)) c.

(** [drop()]. *)
Definition drop (c : list A) : list A := [].

(** Whether [x] comes strictly before [y] in the sort order. *)
Definition before (dir : direction) (x y : Z) : bool :=
  match dir with
  | ASCENDING => x <? y
  | DESCENDING => y <? x
  end.

(** The head of a stable sort on [key]: the first document in natural
    order among those with the extreme key. *)
Fixpoint first_sorted (key : A -> Z) (dir : direction) (c : list A) : option A :=
  match c with
  | [] => None
  | d :: c' =>
      match first_sorted key dir c' with
      | None => Some d
      | Some d' => if before dir (key d') (key d) then Some d' else Some d
      end
  end.

(** [find_one(q, sort=[(key, dir)])]. *)
Definition find_one_sorted (q : A -> bool) (key : A -> Z) (dir : direction)
    (c : list A) : option A :=
  first_sorted key dir (filter q c).
End Collection.

(** The query [{"block_index": {"$gt": i}}]. *)
Definition block_index_gt {A : Type} `{BlockScoped A} (i : Z) (d : A) : bool :=
  i <? get_block_index d.

(** The query [{"block_index": i}]. *)
Definition block_index_is (i : Z) (b : block) : bool := block_index b =? i.

(** [save(doc)] on a document that has an [_id]: replace the document of
    that [_id] (Mongo keeps [_id]s unique), insert when there is none. *)
Definition save (doc : tracked_asset) (c : list tracked_asset) : list tracked_asset :=
  if existsb (fun d => Nat.eqb (_id d) (_id doc)) c
  then map (fun d => if Nat.eqb (_id d) (_id doc) then doc else d) c
  else c ++ [doc].

(** [list.pop()]: the last element and the list without it. *)
Definition pop {A : Type} (l : list A) : option (A * list A) :=
  match rev l with
  | [] => None
  | x :: r => Some (x, rev r)
  end.

(** All of a list of hooks, in order, on the state the hooks own. *)
Definition run_hooks {E : Type} (hooks : list (Z -> E -> E)) (t : Z) (e : E) : E :=
  fold_left (fun e hook => hook t e) hooks e.

(** ** The world: database, process-wide state, cache, hook-owned state *)

Section Engine.
Context {E : Type}.

(** [hook_state] is whatever the extension modules own; [next_oid] is the
    supply of fresh [ObjectId]s that [insert] draws from. *)
Record World : Type := mk_world {
  mongo_db : MongoDB;
  state : State;
  blockinfo_cache : list (Z * block);
  hook_state : E;
  next_oid : ObjectId
}.

(** A call either raises, or returns a value; both leave a world behind. *)
Inductive outcome (A : Type) : Type :=
| Raise (e : exn) (w : World)
| Return (a : A) (w : World).
Arguments Raise {A} e w.
Arguments Return {A} a w.

Definition M (A : Type) : Type := World -> outcome A.

Definition ret {A : Type} (a : A) : M A := fun w => Return a w.

Definition bind {A B : Type} (m : M A) (k : A -> M B) : M B :=
  fun w => match m w with
           | Raise e w' => Raise e w'
           | Return a w' => k a w'
           end.

Definition raise {A : Type} (e : exn) : M A := fun w => Raise e w.

Notation "x <- c1 ;; c2" := (bind c1 (fun x => c2))
  (at level 61, c1 at next level, right associativity).
Notation "c1 ;; c2" := (bind c1 (fun _ => c2))
  (at level 61, right associativity).

(** Read the database. *)
Definition query {A : Type} (f : MongoDB -> A) : M A :=
  fun w => Return (f (mongo_db w)) w.

(** Write the database. *)
Definition update (f : MongoDB -> MongoDB) : M unit :=
  fun w => Return tt (mk_world (f (mongo_db w)) (state w) (blockinfo_cache w)
                               (hook_state w) (next_oid w)).

Definition get_state {A : Type} (f : State -> A) : M A :=
  fun w => Return (f (state w)) w.

Definition set_state (f : State -> State) : M unit :=
  fun w => Return tt (mk_world (mongo_db w) (f (state w)) (blockinfo_cache w)
                               (hook_state w) (next_oid w)).

Definition set_my_latest_block (i : Z) (s : State) : State :=
  mk_state i (last_message_index s) (caught_up s).

Definition set_last_message_index (i : Z) (s : State) : State :=
  mk_state (my_latest_block s) i (caught_up s).

Definition set_caught_up (b : bool) (s : State) : State :=
  mk_state (my_latest_block s) (last_message_index s) b.

(** [cache.blockinfo_cache.clear()]. *)
Definition blockinfo_cache_clear : M unit :=
  fun w => Return tt (mk_world (mongo_db w) (state w) [] (hook_state w) (next_oid w)).

(** A fresh [ObjectId]. *)
Definition new_ObjectId : M ObjectId :=
  fun w => Return (next_oid w)
             (mk_world (mongo_db w) (state w) (blockinfo_cache w) (hook_state w)
                       (S (next_oid w))).

(** [assert b]. *)
Definition assert_ (b : bool) : M unit :=
  if b then ret tt else raise AssertionError.

(** [for x in l: body(x)]. *)
Fixpoint for_each {A : Type} (l : list A) (body : A -> M unit) : M unit :=
  match l with
  | [] => ret tt
  | x :: l' => body x ;; for_each l' body
  end.

Variable config : Config.

(** Modelled from the spec: [lib/processor.py] is missing, so the rollback
    processors are a parameter.  A registered hook receives the target
    block and works on the state the extensions own ("must not share
    mutable state with the engine beyond the target-block parameter");
    what a hook did before failing is part of its effect, and a failure
    stops neither the remaining hooks nor the rollback
    ("log and continue"). *)
Variable rollback_processors : list (Z -> E -> E).

(** Modelled from the spec: [RollbackProcessor.run_active_functions],
    the registered hooks one after the other in registration order,
    each with the same target. *)
Definition run_active_functions (max_block_index : Z) : M unit :=
  fun w => Return tt
             (mk_world (mongo_db w) (state w) (blockinfo_cache w)
                (run_hooks rollback_processors max_block_index (hook_state w))
                (next_oid w)).

(** ** get_block_indexes_for_dates *)

Definition get_block_indexes_for_dates (start_dt end_dt : option Z) : M (Z * Z) :=
  start_block_index <-
    match start_dt with
    | None => ret (BLOCK_FIRST config)
    | Some s =>
        start_block <- query (fun db =>
          find_one_sorted (fun b => block_time b <=? s) block_time DESCENDING
                          (processed_blocks db)) ;;
        ret (match start_block with
             | None => BLOCK_FIRST config
             | Some b => block_index b
             end)
    end ;;
  end_block_index <-
    match end_dt with
    | None => get_state my_latest_block
    | Some e =>
        end_block <- query (fun db =>
          find_one_sorted (fun b => e <=? block_time b) block_time ASCENDING
                          (processed_blocks db)) ;;
        match end_block with
        | None =>
            highest <- query (fun db =>
              find_one_sorted (fun _ => true) block_index DESCENDING
                              (processed_blocks db)) ;;
            match highest with
            | None => raise TypeError
            | Some b => ret (block_index b)
            end
        | Some b => ret (block_index b)
        end
    end ;;
  ret (start_block_index, end_block_index).

(** ** get_block_time *)

Definition get_block_time (i : Z) : M (option Z) :=
  b <- query (fun db => find_one (block_index_is i) (processed_blocks db)) ;;
  ret (option_map block_time b).

(** ** reset_db_state *)

(** [update({}, doc, upsert=True)] on [app_config]: the first document is
    replaced and keeps its [_id]; an empty collection gets the document
    under a fresh [_id]. *)
Definition app_config_upsert (doc : ObjectId -> app_config_doc) : M unit :=
  existing <- query app_config ;;
  match existing with
  | [] => oid <- new_ObjectId ;; update (with_app_config (fun c => c ++ [doc oid]))
  | d :: _ => update (with_app_config (fun c => doc (ac_id d) :: tl c))
  end.

(** [tracked_assets.insert(doc)]. *)
Definition tracked_assets_insert (cur : version) (history : list version) : M unit :=
  oid <- new_ObjectId ;;
  update (with_tracked_assets (fun c => c ++ [mk_asset oid cur history])).

Definition base_asset (name : string) : version :=
  mk_version name (BLOCK_FIRST config)
    [("owner", VNone); ("divisible", VBool true); ("locked", VBool false);
     ("total_issued", VNone)]%string.

Definition reset_db_state : M app_config_doc :=
  update (with_processed_blocks drop) ;;
  update (with_tracked_assets drop) ;;
  update (with_trades drop) ;;
  update (with_balance_changes drop) ;;
  update (with_asset_market_info drop) ;;
  update (with_asset_marketcap_history drop) ;;
  update (with_pair_market_info drop) ;;
  update (with_btc_open_orders drop) ;;
  update (with_asset_extended_info drop) ;;
  update (with_transaction_stats drop) ;;
  update (with_feeds drop) ;;
  update (with_wallet_stats drop) ;;
  app_config_upsert (fun oid =>
    mk_app_config oid (DB_VERSION config) (TESTNET config) None None None
                  (BLOCK_FIRST config)) ;;
  found <- query app_config ;;
  match found with
  | [] => raise IndexError
  | app_config0 :: _ =>
      for_each [XCP config; BTC config]
               (fun name => tracked_assets_insert (base_asset name) []) ;;
      set_state (set_my_latest_block 0) ;;
      set_state (set_last_message_index (-1)) ;;
      ret app_config0
  end.

(** ** rollback *)

(** The [while len(asset['_history'])] loop: pop from the newest end until
    a version at or before the target is popped or the history is empty.
    Returns [prev_ver] and what is left of the history.  Each turn pops
    one element, so [length history] turns are enough. *)
Fixpoint pop_history (fuel : nat) (max_block_index : Z) (history : list version)
    (prev_ver : option version) : option version * list version :=
  match fuel with
  | O => (prev_ver, history)
  | S fuel' =>
      match pop history with
      | None => (prev_ver, history)
      | Some (popped, history') =>
          if _at_block popped <=? max_block_index
          then (Some popped, history')
          else pop_history fuel' max_block_index history' (Some popped)
      end
  end.

(** The body of [for asset in assets_to_prune]. *)
Definition prune_asset (max_block_index : Z) (a : tracked_asset) : M unit :=
  let (prev_ver, history) :=
    pop_history (List.length (_history a)) max_block_index (_history a) None in
  match prev_ver with
  | None => ret tt
  | Some pv =>
      if max_block_index <? _at_block pv
      then update (with_tracked_assets
                     (remove (fun d => String.eqb (asset (current d))
                                                  (asset (current a)))))
      else update (with_tracked_assets (save (mk_asset (_id a) pv history)))
  end.

(** [assets_to_prune] is the result of the [find] as it stands when the
    loop starts; the writes of the loop go to the collection. *)
Definition rollback (max_block_index : Z) : M block :=
  assert_ (0 <? max_block_index) ;;
  target <- query (fun db => find_one (block_index_is max_block_index)
                                      (processed_blocks db)) ;;
  match target with
  | None => raise (Exception_no_block max_block_index)
  | Some _ =>
      update (with_processed_blocks (remove (block_index_gt max_block_index))) ;;
      update (with_balance_changes (remove (block_index_gt max_block_index))) ;;
      update (with_trades (remove (block_index_gt max_block_index))) ;;
      update (with_asset_marketcap_history (remove (block_index_gt max_block_index))) ;;
      update (with_transaction_stats (remove (block_index_gt max_block_index))) ;;
      assets_to_prune <- query (fun db =>
        find (fun a => max_block_index <? _at_block (current a)) (tracked_assets db)) ;;
      for_each assets_to_prune (prune_asset max_block_index) ;;
      run_active_functions max_block_index ;;
      set_state (set_last_message_index (-1)) ;;
      set_state (set_caught_up false) ;;
      blockinfo_cache_clear ;;
      latest_block <- query (fun db => find_one (block_index_is max_block_index)
                                                (processed_blocks db)) ;;
      ret (match latest_block with
           | Some b => b
           | None => LATEST_BLOCK_INIT config
           end)
  end.

End Engine.

Arguments World E : clear implicits.
Arguments M E A : clear implicits.
Arguments Raise {E A} e w.
Arguments Return {E A} a w.

(** ** Derived views used in the statements *)

(** What one turn of the pruning loop does to [tracked_assets]. *)
Definition prune_step (t : Z) (c : list tracked_asset) (a : tracked_asset)
    : list tracked_asset :=
  match pop_history (List.length (_history a)) t (_history a) None with
  | (None, _) => c
  | (Some pv, history) =>
      if t <? _at_block pv
      then remove (fun d => String.eqb (asset (current d)) (asset (current a))) c
      else save (mk_asset (_id a) pv history) c
  end.

(** What the whole pruning loop does to [tracked_assets]. *)
Definition pruned_assets (t : Z) (c : list tracked_asset) : list tracked_asset :=
  fold_left (prune_step t)
            (find (fun a => t <? _at_block (current a)) c) c.

(** The natural key of a tracked asset. *)
Definition asset_name (a : tracked_asset) : string := asset (current a).

(** The data model's invariants on [tracked_assets]: one document per
    [_id], one per natural key, and every history entry carries the key of
    its document. *)
Definition well_formed (c : list tracked_asset) : Prop :=
  NoDup (map _id c) /\
  NoDup (map asset_name c) /\
  Forall (fun a => Forall (fun v => asset v = asset_name a) (_history a)) c.

(** The data model's invariants on [processed_blocks] and the
    latest-processed-block counter that the range lookup relies on. *)
Definition time_ordered (blocks : list block) : Prop :=
  forall b1 b2, In b1 blocks -> In b2 blocks ->
    block_time b1 <= block_time b2 -> block_index b1 <= block_index b2.

Definition none_before_first (config : Config) (blocks : list block) : Prop :=
  forall b, In b blocks -> BLOCK_FIRST config <= block_index b.

Definition counter_at_tip (st : State) (blocks : list block) : Prop :=
  forall b, In b blocks -> block_index b <= my_latest_block st.

(** An asset is settled at [t] when it is at or before [t], or has no
    history left to fall back on. *)
Definition settled (t : Z) (d : tracked_asset) : Prop :=
  t < _at_block (current d) -> _history d = [].

(** The query [{'asset': a['asset']}]. *)
Definition same_key (a d : tracked_asset) : bool :=
  String.eqb (asset_name d) (asset_name a).

(** The documents under the natural key of [a] are exactly [z], and
    whatever has the [_id] of [a] is under that key. *)
Definition sole_under_key (a z : tracked_asset) (c : list tracked_asset) : Prop :=
  filter (same_key a) c = [z] /\
  (forall y, In y c -> _id y = _id a -> asset_name y = asset_name a).

(** A collection cut at [t]: nothing above [t] is left, and what was at
    or below [t] is there as before. *)
Definition cut_at {A : Type} `{BlockScoped A} (t : Z) (before after : list A) : Prop :=
  (forall d, In d after -> get_block_index d <= t) /\
  after = filter (fun d => get_block_index d <=? t) before.

(** The precondition of [rollback]. *)
Definition rollback_pre {E : Type} (t : Z) (w : World E) : Prop :=
  0 < t /\ exists b, In b (processed_blocks (mongo_db w)) /\ block_index b = t.

(** ** The words of the range lookup *)

(** The latest block with [block_time <= s]. *)
Definition latest_at_or_before (s : Z) (blocks : list block) (b : block) : Prop :=
  In b blocks /\ block_time b <= s /\
  forall b', In b' blocks -> block_time b' <= s -> block_time b' <= block_time b.

(** The earliest block with [block_time >= e]. *)
Definition earliest_at_or_after (e : Z) (blocks : list block) (b : block) : Prop :=
  In b blocks /\ e <= block_time b /\
  forall b', In b' blocks -> e <= block_time b' -> block_time b <= block_time b'.

(** A block with the highest known index. *)
Definition highest_block (blocks : list block) (b : block) : Prop :=
  In b blocks /\ forall b', In b' blocks -> block_index b' <= block_index b.

Definition start_index_ok (config : Config) (blocks : list block)
    (start_dt : option Z) (i : Z) : Prop :=
  match start_dt with
  | None => i = BLOCK_FIRST config
  | Some s =>
      (exists b, latest_at_or_before s blocks b /\ i = block_index b) \/
      ((forall b, In b blocks -> s < block_time b) /\ i = BLOCK_FIRST config)
  end.

Definition end_index_ok (st : State) (blocks : list block)
    (end_dt : option Z) (i : Z) : Prop :=
  match end_dt with
  | None => i = my_latest_block st
  | Some e =>
      (exists b, earliest_at_or_after e blocks b /\ i = block_index b) \/
      ((forall b, In b blocks -> block_time b < e) /\
       exists b, highest_block blocks b /\ i = block_index b)
  end.

(** ** Sample data *)

Definition sample_config : Config :=
  mk_config 10 3 false "XCP" "BTC" (mk_block 10 0 []).

(** A hook that forgets what its extension recorded above the target. *)
Definition sample_hook (t : Z) (e : list Z) : list Z :=
  filter (fun i => i <=? t) e.

Definition sample_hooks : list (Z -> list Z -> list Z) := [sample_hook].

Definition empty_db : MongoDB :=
  mk_db [] [] [] [] [] [] [] [] [] [] [] [] [] [] [] [] [] [] [].

(** Entity A of the scenarios: one earlier version at block 100, current
    version at block 300. *)
Definition entity_A : tracked_asset :=
  mk_asset 7%nat (mk_version "A" 300 [("qty", VInt 10)]%string)
             [mk_version "A" 100 [("qty", VInt 5)]%string].

Definition entity_A_restored : tracked_asset :=
  mk_asset 7%nat (mk_version "A" 100 [("qty", VInt 5)]%string) [].

(** Entity B of the scenarios: created at block 50, no earlier version. *)
Definition entity_B : tracked_asset :=
  mk_asset 8%nat (mk_version "B" 50 [("qty", VInt 1)]%string) [].

Definition sample_db : MongoDB :=
  with_feeds (fun _ => [[("source", VStr "feed")]%string])
  (with_transaction_stats (fun _ => [mk_scoped 100 []; mk_scoped 300 []])
  (with_asset_marketcap_history (fun _ => [mk_scoped 200 []; mk_scoped 250 []])
  (with_balance_changes (fun _ => [mk_scoped 300 []; mk_scoped 100 []])
  (with_trades (fun _ => [mk_scoped 100 []; mk_scoped 200 []; mk_scoped 300 []])
  (with_tracked_assets (fun _ => [entity_A; entity_B])
  (with_processed_blocks
     (fun _ => [mk_block 10 1000 []; mk_block 100 10000 [];
                mk_block 200 20000 []; mk_block 300 30000 []])
     empty_db)))))).

Definition sample_world : World (list Z) :=
  mk_world sample_db (mk_state 300 41 true)
           [(300, mk_block 300 30000 [])] [100; 250; 300] 9%nat.

(** ** One asset at a time *)

(** What the turn of [a] in the pruning loop leaves of [a]: [a] itself
    when nothing was popped, nothing when even the oldest version is above
    the target, the restored version otherwise. *)
Definition turn (t : Z) (a : tracked_asset) : list tracked_asset :=
  match pop_history (List.length (_history a)) t (_history a) None with
  | (None, _) => [a]
  | (Some pv, history) =>
      if t <? _at_block pv then [] else [mk_asset (_id a) pv history]
  end.

(** What a rollback to [t] leaves of [a]: only the assets above the target
    get a turn. *)
Definition reconstruct (t : Z) (a : tracked_asset) : list tracked_asset :=
  if t <? _at_block (current a) then turn t a else [a].

(** The turns of the assets listed in [l], by [_id]. *)
Definition turns (t : Z) (l : list tracked_asset) (d : tracked_asset)
    : list tracked_asset :=
  if existsb (fun x => Nat.eqb (_id x) (_id d)) l then turn t d else [d].

(** [e] is what is left of [d] at [t]: the same document, or an earlier
    version of it at or before [t], under the same [_id] and key, with a
    front part of its history. *)
Definition left_of (t : Z) (d e : tracked_asset) : Prop :=
  _id e = _id d /\
  asset_name e = asset_name d /\
  (exists h2, _history d = _history e ++ h2) /\
  (e = d \/ (_at_block (current e) <= t /\ In (current e) (_history d))).

(** Nothing in the database is above [t]: no block-scoped record, and no
    tracked asset that still has a history to fall back on. *)
Definition at_tip (t : Z) (db : MongoDB) : Prop :=
  (forall d, In d (processed_blocks db) -> block_index d <= t) /\
  (forall d, In d (balance_changes db) -> sd_block_index d <= t) /\
  (forall d, In d (trades db) -> sd_block_index d <= t) /\
  (forall d, In d (asset_marketcap_history db) -> sd_block_index d <= t) /\
  (forall d, In d (transaction_stats db) -> sd_block_index d <= t) /\
  (forall a, In a (tracked_assets db) -> settled t a).

(** A database with the [_id]s of its tracked assets forgotten. *)
Definition without_asset_ids (db : MongoDB) : MongoDB :=
  with_tracked_assets (map (fun a => mk_asset O (current a) (_history a))) db.

(** The [_id] under which [reset_db_state] writes the [app_config]
    document: that of the first document there, a fresh one when there is
    none. *)
Definition app_config_id {E : Type} (w : World E) : ObjectId :=
  match app_config (mongo_db w) with
  | [] => next_oid w
  | d :: _ => ac_id d
  end.

(** The integers a query can carry: BSON encodes a Python integer as a
    signed 64-bit number and the driver refuses any other, so the lookups
    are described for these. *)
Definition fits_int64 (i : Z) : Prop :=
  -9223372036854775808 <= i <= 9223372036854775807.

Definition date_fits (dt : option Z) : Prop :=
  match dt with
  | None => True
  | Some z => fits_int64 z
  end.

(** * Properties *)

(** ** Lists as stacks, filters *)

Lemma pop_nil {A : Type} : pop (@nil A) = None.
Proof. reflexivity. Qed.

Lemma pop_snoc {A : Type} (l : list A) (x : A) : pop (l ++ [x]) = Some (x, l).
Proof.
  unfold pop. rewrite rev_app_distr. simpl. now rewrite rev_involutive.
Qed.

Lemma filter_idem {A : Type} (p : A -> bool) (l : list A) :
  filter p (filter p l) = filter p l.
Proof.
  induction l as [|x l IH]; simpl; [reflexivity|].
  destruct (p x) eqn:Hx; simpl; [rewrite Hx, IH|]; auto.
Qed.

Lemma filter_all {A : Type} (p : A -> bool) (l : list A) :
  (forall x, In x l -> p x = true) -> filter p l = l.
Proof.
  induction l as [|x l IH]; simpl; intros H; [reflexivity|].
  rewrite (H x (or_introl eq_refl)). f_equal. apply IH. intros; apply H; auto.
Qed.

Lemma remove_idem {A : Type} (q : A -> bool) (c : list A) :
  remove q (remove q c) = remove q c.
Proof. apply filter_idem. Qed.

Lemma in_remove {A : Type} (q : A -> bool) (c : list A) (d : A) :
  In d (remove q c) <-> In d c /\ q d = false.
Proof.
  unfold remove. rewrite filter_In, negb_true_iff. tauto.
Qed.

Lemma find_one_some {A : Type} (q : A -> bool) (c : list A) (d : A) :
  find_one q c = Some d -> In d c /\ q d = true.
Proof. apply find_some. Qed.

Lemma find_one_none {A : Type} (q : A -> bool) (c : list A) :
  find_one q c = None <-> (forall d, In d c -> q d = false).
Proof.
  split; [apply find_none|].
  induction c as [|x c IH]; simpl; intros H; [reflexivity|].
  rewrite (H x (or_introl eq_refl)). apply IH. intros; apply H; auto.
Qed.

(** Removing documents that do not match [q] leaves [find_one q] alone. *)
Lemma find_one_remove {A : Type} (q r : A -> bool) (c : list A) :
  (forall d, q d = true -> r d = false) ->
  find_one q (remove r c) = find_one q c.
Proof.
  intros H. induction c as [|x c IH]; simpl; [reflexivity|].
  destruct (q x) eqn:Hq.
  - rewrite (H x Hq). simpl. now rewrite Hq.
  - destruct (r x); simpl; [|rewrite Hq]; apply IH.
Qed.

(** ** The history loop *)

Section PopHistory.
Variable t : Z.

(** The loop stops at the newest version at or before the target. *)
Lemma pop_history_break (h2 : list version) :
  forall (h1 : list version) (v : version) (p : option version) (fuel : nat),
  _at_block v <= t ->
  Forall (fun x => t < _at_block x) h2 ->
  (List.length h2 < fuel)%nat ->
  pop_history fuel t (h1 ++ v :: h2) p = (Some v, h1).
Proof.
  induction h2 as [|x h2 IH] using rev_ind; intros h1 v p fuel Hv Hall Hfuel.
  - destruct fuel as [|fuel]; [simpl in Hfuel; lia|].
    simpl. rewrite pop_snoc.
    destruct (Z.leb_spec (_at_block v) t); [reflexivity|lia].
  - destruct fuel as [|fuel]; [simpl in Hfuel; lia|].
    rewrite length_app in Hfuel. simpl in Hfuel.
    apply Forall_app in Hall. destruct Hall as [Hall Hx].
    inversion Hx as [|? ? Hx' _]; subst.
    change (h1 ++ v :: h2 ++ [x]) with (h1 ++ (v :: h2) ++ [x]).
    rewrite app_assoc. simpl. rewrite pop_snoc.
    destruct (Z.leb_spec (_at_block x) t); [lia|].
    apply IH; auto. lia.
Qed.

(** With every version above the target the loop empties the history and
    leaves in [prev_ver] the last one popped, the oldest. *)
Lemma pop_history_exhaust (h : list version) :
  forall (p : option version) (fuel : nat),
  Forall (fun x => t < _at_block x) h ->
  (List.length h <= fuel)%nat ->
  pop_history fuel t h p = (match h with [] => p | x :: _ => Some x end, []).
Proof.
  induction h as [|x h IH] using rev_ind; intros p fuel Hall Hfuel.
  - destruct fuel; reflexivity.
  - rewrite length_app in Hfuel. simpl in Hfuel.
    destruct fuel as [|fuel]; [lia|].
    apply Forall_app in Hall. destruct Hall as [Hall Hx].
    inversion Hx as [|? ? Hx' _]; subst.
    simpl. rewrite pop_snoc.
    destruct (Z.leb_spec (_at_block x) t); [lia|].
    rewrite IH; auto; [|lia].
    destruct h; reflexivity.
Qed.

(** Every history is of one of the two shapes. *)
Lemma history_shape (h : list version) :
  Forall (fun x => t < _at_block x) h \/
  exists h1 v h2, h = h1 ++ v :: h2 /\ _at_block v <= t /\
                  Forall (fun x => t < _at_block x) h2.
Proof.
  induction h as [|x h IH] using rev_ind; [left; constructor|].
  destruct (Z.leb_spec (_at_block x) t) as [Hx|Hx].
  - right. exists h, x, []. repeat split; auto.
  - destruct IH as [IH|(h1 & v & h2 & -> & Hv & Hall)].
    + left. apply Forall_app. split; auto.
    + right. exists h1, v, (h2 ++ [x]). rewrite <- app_assoc. simpl.
      repeat split; auto. apply Forall_app. split; auto.
Qed.

(** What the loop leaves when it is given the whole history as fuel:
    nothing popped only for an empty history; otherwise a version at or
    before the target with the entries before it, or the oldest version
    and nothing. *)
Lemma pop_history_cases (h : list version) :
  (h = [] /\ pop_history (List.length h) t h None = (None, [])) \/
  (exists x h', h = x :: h' /\ t < _at_block x /\
                Forall (fun y => t < _at_block y) h' /\
                pop_history (List.length h) t h None = (Some x, [])) \/
  (exists h1 v h2, h = h1 ++ v :: h2 /\ _at_block v <= t /\
                   Forall (fun x => t < _at_block x) h2 /\
                   pop_history (List.length h) t h None = (Some v, h1)).
Proof.
  destruct (history_shape h) as [Hall|(h1 & v & h2 & Heq & Hv & Hall)].
  - destruct h as [|x h'].
    + left. split; reflexivity.
    + right. left. exists x, h'. inversion Hall; subst.
      repeat split; auto.
      rewrite pop_history_exhaust; auto.
  - right. right. exists h1, v, h2. repeat split; auto.
    subst h. apply pop_history_break; auto.
    rewrite length_app. simpl. lia.
Qed.

End PopHistory.

(** ** Running [rollback] *)

(** Carry out the reads and writes of a straight-line run, innermost
    first, so that each collection is written where it stands. *)
Ltac run_writes :=
  cbv beta iota delta
    [bind ret query update get_state set_state blockinfo_cache_clear
     set_my_latest_block set_last_message_index set_caught_up
     with_processed_blocks with_tracked_assets with_trades with_balance_changes
     with_asset_market_info with_asset_marketcap_history with_pair_market_info
     with_asset_extended_info with_btc_open_orders with_transaction_stats
     with_wallet_stats with_app_config with_feeds
     mongo_db state blockinfo_cache hook_state next_oid
     processed_blocks tracked_assets trades balance_changes asset_market_info
     asset_marketcap_history pair_market_info asset_pair_market_info
     asset_extended_info btc_open_orders transaction_stats wallet_stats
     app_config preferences login_history chat_handles chat_history feeds mempool
     my_latest_block last_message_index caught_up].

Section RollbackRuns.
Context {E : Type}.
Variable config : Config.
Variable hooks : list (Z -> E -> E).

Lemma prune_asset_run (t : Z) (a : tracked_asset) (w : World E) :
  prune_asset t a w =
  Return tt (mk_world (with_tracked_assets (fun c => prune_step t c a) (mongo_db w))
                      (state w) (blockinfo_cache w) (hook_state w) (next_oid w)).
Proof.
  unfold prune_asset, prune_step.
  destruct (pop_history _ t (_history a) None) as [[pv|] h].
  - destruct (t <? _at_block pv); reflexivity.
  - destruct w as [[] ? ? ? ?]; reflexivity.
Qed.

Lemma for_each_prune_run (t : Z) (l : list tracked_asset) :
  forall w : World E,
  for_each l (prune_asset t) w =
  Return tt (mk_world (with_tracked_assets (fun c => fold_left (prune_step t) l c)
                                           (mongo_db w))
                      (state w) (blockinfo_cache w) (hook_state w) (next_oid w)).
Proof.
  induction l as [|a l IH]; intros w.
  - destruct w as [[] ? ? ? ?]; reflexivity.
  - simpl. unfold bind. rewrite prune_asset_run, IH. reflexivity.
Qed.

(** The world a successful rollback to [t] leaves. *)
Lemma rollback_run (t : Z) (w : World E) (b : block) :
  0 < t ->
  find_one (block_index_is t) (processed_blocks (mongo_db w)) = Some b ->
  rollback config hooks t w =
  Return b
    (mk_world
       (mk_db (remove (block_index_gt t) (processed_blocks (mongo_db w)))
              (pruned_assets t (tracked_assets (mongo_db w)))
              (remove (block_index_gt t) (trades (mongo_db w)))
              (remove (block_index_gt t) (balance_changes (mongo_db w)))
              (asset_market_info (mongo_db w))
              (remove (block_index_gt t) (asset_marketcap_history (mongo_db w)))
              (pair_market_info (mongo_db w))
              (asset_pair_market_info (mongo_db w))
              (asset_extended_info (mongo_db w))
              (btc_open_orders (mongo_db w))
              (remove (block_index_gt t) (transaction_stats (mongo_db w)))
              (wallet_stats (mongo_db w))
              (app_config (mongo_db w))
              (preferences (mongo_db w))
              (login_history (mongo_db w))
              (chat_handles (mongo_db w))
              (chat_history (mongo_db w))
              (feeds (mongo_db w))
              (mempool (mongo_db w)))
       (mk_state (my_latest_block (state w)) (-1) false)
       []
       (run_hooks hooks t (hook_state w))
       (next_oid w)).
Proof.
  intros Ht Hb.
  assert (Hb' : find_one (block_index_is t)
                  (remove (block_index_gt t) (processed_blocks (mongo_db w))) = Some b).
  { rewrite find_one_remove; auto.
    intros d Hd. unfold block_index_is in Hd. unfold block_index_gt.
    unfold get_block_index, BlockScoped_block.
    apply Z.eqb_eq in Hd. apply Z.ltb_ge. lia. }
  unfold rollback, bind at 1, assert_.
  destruct (Z.ltb_spec 0 t); [|lia].
  unfold ret at 1, bind at 1, query at 1. rewrite Hb.
  destruct w as [[blocks ? ? ? ? ? ? ? ? ? ? ? ? ? ? ? ? ? ?] st cache e n].
  cbn [processed_blocks mongo_db] in Hb'.
  run_writes. rewrite for_each_prune_run. run_writes.
  unfold run_active_functions. run_writes.
  rewrite Hb'. reflexivity.
Qed.

Lemma rollback_not_positive (t : Z) (w : World E) :
  t <= 0 -> rollback config hooks t w = Raise AssertionError w.
Proof.
  intros Ht. unfold rollback, bind at 1, assert_.
  destruct (Z.ltb_spec 0 t); [lia|reflexivity].
Qed.

Lemma rollback_no_block (t : Z) (w : World E) :
  0 < t ->
  find_one (block_index_is t) (processed_blocks (mongo_db w)) = None ->
  rollback config hooks t w = Raise (Exception_no_block t) w.
Proof.
  intros Ht Hb. unfold rollback, bind at 1, assert_.
  destruct (Z.ltb_spec 0 t); [|lia].
  unfold ret at 1, bind at 1, query at 1. rewrite Hb. reflexivity.
Qed.

End RollbackRuns.

(** ** The precondition *)

Lemma find_one_block_index (t : Z) (blocks : list block) :
  (exists b, In b blocks /\ block_index b = t) ->
  exists b, find_one (block_index_is t) blocks = Some b /\ block_index b = t.
Proof.
  intros (b & Hin & Hb).
  destruct (find_one (block_index_is t) blocks) as [b'|] eqn:Hf.
  - exists b'. split; auto.
    apply find_one_some in Hf. destruct Hf as [_ Hf].
    now apply Z.eqb_eq in Hf.
  - rewrite find_one_none in Hf. specialize (Hf b Hin).
    unfold block_index_is in Hf. apply Z.eqb_neq in Hf. contradiction.
Qed.

Section RollbackClaims.
Context {E : Type}.
Variable config : Config.
Variable hooks : list (Z -> E -> E).

(** C1: a target that is not positive, or that no processed block has as
    its index, makes [rollback] raise, and the world it leaves is the
    world it was given: no collection, counter or cache has changed. *)
Theorem rollback_rejects_bad_target (t : Z) (w : World E) :
  t <= 0 \/ ~ (exists b, In b (processed_blocks (mongo_db w)) /\ block_index b = t) ->
  exists e,
    rollback config hooks t w = Raise e w /\
    (e = AssertionError \/ e = Exception_no_block t).
Proof.
  intros [Ht|Hno].
  - exists AssertionError. split; auto. now apply rollback_not_positive.
  - destruct (Z.le_gt_cases t 0) as [Ht|Ht].
    + exists AssertionError. split; auto. now apply rollback_not_positive.
    + exists (Exception_no_block t). split; auto.
      apply rollback_no_block; [lia|].
      apply find_one_none. intros d Hd.
      unfold block_index_is. apply Z.eqb_neq. intros Heq.
      apply Hno. now exists d.
Qed.

Lemma filter_le_gt {A : Type} `{BlockScoped A} (t : Z) (c : list A) :
  cut_at t c (remove (block_index_gt t) c).
Proof.
  split.
  - intros d Hd. apply in_remove in Hd. destruct Hd as [_ Hd].
    unfold block_index_gt in Hd. now apply Z.ltb_ge in Hd.
  - unfold remove, block_index_gt. apply filter_ext. intros d.
    destruct (Z.ltb_spec t (get_block_index d)), (Z.leb_spec (get_block_index d) t);
      simpl; auto; lia.
Qed.

(** C2: a rollback to a valid target returns, and it leaves each of
    [processed_blocks], [balance_changes], [trades],
    [asset_marketcap_history] and [transaction_stats] cut at the target:
    no record above it, the records at or below it as they were. *)
Theorem rollback_cuts_block_scoped (t : Z) (w : World E) :
  rollback_pre t w ->
  exists b w',
    rollback config hooks t w = Return b w' /\
    cut_at t (processed_blocks (mongo_db w)) (processed_blocks (mongo_db w')) /\
    cut_at t (balance_changes (mongo_db w)) (balance_changes (mongo_db w')) /\
    cut_at t (trades (mongo_db w)) (trades (mongo_db w')) /\
    cut_at t (asset_marketcap_history (mongo_db w))
             (asset_marketcap_history (mongo_db w')) /\
    cut_at t (transaction_stats (mongo_db w)) (transaction_stats (mongo_db w')).
Proof.
  intros [Ht Hex].
  destruct (find_one_block_index t _ Hex) as (b & Hb & _).
  eexists. eexists. split; [apply rollback_run; eassumption|].
  simpl. repeat split; try apply filter_le_gt.
Qed.

(** C10: a rollback to a valid target returns with the latest-processed-
    block counter as it found it, the last message index at its sentinel
    -1 and the caught-up flag cleared. *)
Theorem rollback_keeps_latest_block (t : Z) (w : World E) :
  rollback_pre t w ->
  exists b w',
    rollback config hooks t w = Return b w' /\
    my_latest_block (state w') = my_latest_block (state w) /\
    last_message_index (state w') = -1 /\
    caught_up (state w') = false.
Proof.
  intros [Ht Hex].
  destruct (find_one_block_index t _ Hex) as (b & Hb & _).
  eexists. eexists. split; [apply rollback_run; eassumption|].
  simpl. auto.
Qed.

End RollbackClaims.

(** C1 on the sample world: no block 500. *)
Lemma rollback_rejects_bad_target_witness :
  exists e,
    rollback sample_config sample_hooks 500 sample_world = Raise e sample_world /\
    (e = AssertionError \/ e = Exception_no_block 500).
Proof.
  apply (rollback_rejects_bad_target sample_config sample_hooks 500 sample_world).
  right. intros (b & Hin & Hb). simpl in Hin.
  repeat (destruct Hin as [Hin|Hin]; [subst b; simpl in Hb; lia|]).
  exact Hin.
Defined.

(** C2 on the sample world, target 200. *)
Lemma rollback_cuts_block_scoped_witness :
  exists b w',
    rollback sample_config sample_hooks 200 sample_world = Return b w' /\
    cut_at 200 (processed_blocks sample_db) (processed_blocks (mongo_db w')) /\
    cut_at 200 (balance_changes sample_db) (balance_changes (mongo_db w')) /\
    cut_at 200 (trades sample_db) (trades (mongo_db w')) /\
    cut_at 200 (asset_marketcap_history sample_db)
               (asset_marketcap_history (mongo_db w')) /\
    cut_at 200 (transaction_stats sample_db) (transaction_stats (mongo_db w')).
Proof.
  apply (rollback_cuts_block_scoped sample_config sample_hooks 200 sample_world).
  split; [lia|]. exists (mk_block 200 20000 []). split; [simpl; auto|reflexivity].
Defined.

(** C10 on the sample world, target 200. *)
Lemma rollback_keeps_latest_block_witness :
  exists b w',
    rollback sample_config sample_hooks 200 sample_world = Return b w' /\
    my_latest_block (state w') = 300 /\
    last_message_index (state w') = -1 /\
    caught_up (state w') = false.
Proof.
  apply (rollback_keeps_latest_block sample_config sample_hooks 200 sample_world).
  split; [lia|]. exists (mk_block 200 20000 []). split; [simpl; auto|reflexivity].
Defined.

(** ** The pruning loop over [tracked_assets] *)

Lemma in_save (x d : tracked_asset) (c : list tracked_asset) :
  In d (save x c) -> d = x \/ (In d c /\ _id d <> _id x).
Proof.
  unfold save. destruct (existsb _ c) eqn:Hex.
  - rewrite in_map_iff. intros (y & Hy & Hin).
    destruct (Nat.eqb_spec (_id y) (_id x)); subst; auto.
  - rewrite in_app_iff. simpl. intros [Hin|[Heq|[]]]; auto.
    right. split; auto. intros Heq.
    assert (Ht : existsb (fun d0 => Nat.eqb (_id d0) (_id x)) c = true).
    { apply existsb_exists. exists d. split; auto. now apply Nat.eqb_eq. }
    congruence.
Qed.

Lemma prune_step_empty_history (t : Z) (c : list tracked_asset) (a : tracked_asset) :
  _history a = [] -> prune_step t c a = c.
Proof. intros H. unfold prune_step. rewrite H. reflexivity. Qed.

Section Settled.
Variable t : Z.

(** Along the loop, whatever is not settled is still waiting for its turn. *)
Lemma prune_loop_settles (l : list tracked_asset) :
  forall c : list tracked_asset,
  (forall d, In d c -> ~ settled t d -> In d l) ->
  forall d, In d (fold_left (prune_step t) l c) -> settled t d.
Proof.
  induction l as [|a l IH]; intros c Hinv d Hd.
  - simpl in Hd. intros Hat.
    destruct (_history d) eqn:Hh; [reflexivity|].
    exfalso. apply (Hinv d Hd). intros Hs. specialize (Hs Hat). congruence.
  - simpl in Hd. apply IH with (c := prune_step t c a); auto.
    clear d Hd. intros d Hd Hns.
    assert (Hda : d <> a -> In d c -> In d l).
    { intros Hneq Hin. destruct (Hinv d Hin Hns) as [Heq|]; auto.
      now subst. }
    unfold prune_step in Hd.
    destruct (pop_history_cases t (_history a))
      as [[Hnil Hp]|[(x & h' & Hh & Hx & _ & Hp)|(h1 & v & h2 & Hh & Hv & _ & Hp)]];
      rewrite Hp in Hd.
    + apply Hda; auto. intros ->. apply Hns. intros _. exact Hnil.
    + destruct (Z.ltb_spec t (_at_block x)); [|lia].
      apply in_remove in Hd. destruct Hd as [Hin Hname].
      apply Hda; auto. intros ->. rewrite String.eqb_refl in Hname. discriminate.
    + destruct (Z.ltb_spec t (_at_block v)); [lia|].
      apply in_save in Hd. destruct Hd as [->|[Hin Hid]].
      * exfalso. apply Hns. intros Hat. simpl in Hat. lia.
      * apply Hda; auto. intros ->. now apply Hid.
Qed.

(** After the loop every asset left is settled. *)
Lemma pruned_assets_settled (c : list tracked_asset) :
  forall d, In d (pruned_assets t c) -> settled t d.
Proof.
  apply prune_loop_settles. intros d Hin Hns.
  unfold find. apply filter_In. split; auto.
  destruct (Z.ltb_spec t (_at_block (current d))); auto.
  exfalso. apply Hns. intros Hat. lia.
Qed.

(** On settled assets the loop changes nothing. *)
Lemma pruned_assets_fixed (c : list tracked_asset) :
  (forall d, In d c -> settled t d) -> pruned_assets t c = c.
Proof.
  intros Hs. unfold pruned_assets.
  assert (Hl : forall a, In a (find (fun a => t <? _at_block (current a)) c) ->
                         _history a = []).
  { intros a Ha. unfold find in Ha. apply filter_In in Ha. destruct Ha as [Hin Hat].
    apply Hs; auto. now apply Z.ltb_lt. }
  revert Hl. generalize (find (fun a => t <? _at_block (current a)) c) as l.
  intros l. generalize c as c0. induction l as [|a l IH]; intros c0 Hl.
  - reflexivity.
  - simpl. rewrite prune_step_empty_history by (apply Hl; now left).
    apply IH. intros; apply Hl; now right.
Qed.

Lemma pruned_assets_idem (c : list tracked_asset) :
  pruned_assets t (pruned_assets t c) = pruned_assets t c.
Proof. apply pruned_assets_fixed, pruned_assets_settled. Qed.

End Settled.

Section Idempotence.
Context {E : Type}.
Variable config : Config.
Variable hooks : list (Z -> E -> E).

(** C5: a rollback to a valid target returns, and so does the same
    rollback called again right after it, leaving the database, the
    process-wide counters and the cache as the first call left them; the
    state the hooks own is the same too when running the hooks twice is
    the same as running them once. *)
Theorem rollback_twice (t : Z) (w : World E) :
  rollback_pre t w ->
  exists b w1 w2,
    rollback config hooks t w = Return b w1 /\
    rollback config hooks t w1 = Return b w2 /\
    mongo_db w2 = mongo_db w1 /\
    state w2 = state w1 /\
    blockinfo_cache w2 = blockinfo_cache w1 /\
    ((forall e, run_hooks hooks t (run_hooks hooks t e) = run_hooks hooks t e) ->
     w2 = w1).
Proof.
  intros [Ht Hex].
  destruct (find_one_block_index t _ Hex) as (b & Hb & Hbt).
  eexists. eexists. eexists.
  split; [apply rollback_run; eassumption|].
  split.
  { apply rollback_run; auto. simpl.
    rewrite find_one_remove; eauto.
    intros d Hd. unfold block_index_is in Hd. apply Z.eqb_eq in Hd.
    unfold block_index_gt, get_block_index, BlockScoped_block.
    apply Z.ltb_ge. lia. }
  simpl. rewrite !remove_idem, pruned_assets_idem.
  repeat split; auto.
  intros Hidem. now rewrite Hidem.
Qed.

End Idempotence.

(** C5 on the sample world, target 200. *)
Lemma rollback_twice_witness :
  exists b w1 w2,
    rollback sample_config sample_hooks 200 sample_world = Return b w1 /\
    rollback sample_config sample_hooks 200 w1 = Return b w2 /\
    mongo_db w2 = mongo_db w1 /\
    state w2 = state w1 /\
    blockinfo_cache w2 = blockinfo_cache w1 /\
    ((forall e, run_hooks sample_hooks 200 (run_hooks sample_hooks 200 e)
                = run_hooks sample_hooks 200 e) ->
     w2 = w1).
Proof.
  apply (rollback_twice sample_config sample_hooks 200 sample_world).
  split; [lia|]. exists (mk_block 200 20000 []). split; [simpl; auto|reflexivity].
Defined.

(** ** Restoring a version *)

(** Documents still have distinct keys after some of them are dropped. *)
Lemma distinct_keys_filter {D K : Type} (key : D -> K) (keep : D -> bool) :
  forall c : list D, NoDup (map key c) -> NoDup (map key (filter keep c)).
Proof.
  intros c. induction c as [|d c IH]; intros Hnd; simpl; [constructor|].
  simpl in Hnd. apply NoDup_cons_iff in Hnd. destruct Hnd as [Hfresh Hnd].
  destruct (keep d); simpl; [|now apply IH].
  apply NoDup_cons; [|now apply IH].
  rewrite in_map_iff. intros (d' & Hkey & Hin).
  apply filter_In in Hin. apply Hfresh.
  rewrite in_map_iff. exists d'. tauto.
Qed.

Lemma NoDup_map_eq {A B : Type} (f : A -> B) (l : list A) (x y : A) :
  NoDup (map f l) -> In x l -> In y l -> f x = f y -> x = y.
Proof.
  induction l as [|z l IH]; simpl; intros Hnd Hx Hy Hf; [contradiction|].
  inversion Hnd as [|? ? Hnotin Hnd']; subst.
  destruct Hx as [->|Hx], Hy as [->|Hy]; auto.
  - exfalso. apply Hnotin. rewrite Hf. now apply in_map.
  - exfalso. apply Hnotin. rewrite <- Hf. now apply in_map.
Qed.

Lemma filter_filter_weaker {A : Type} (p q : A -> bool) (l : list A) :
  (forall x, p x = true -> q x = true) ->
  filter p (filter q l) = filter p l.
Proof.
  intros H. induction l as [|x l IH]; simpl; [reflexivity|].
  destruct (q x) eqn:Hq; simpl.
  - destruct (p x); now rewrite IH.
  - destruct (p x) eqn:Hp; auto. apply H in Hp. congruence.
Qed.

Section Restore.
Variable t : Z.
Variable a : tracked_asset.

(** Before the loop the document of [a] is alone under its key. *)
Lemma sole_initially (c : list tracked_asset) :
  well_formed c -> In a c -> sole_under_key a a c.
Proof.
  intros (Hid & Hname & _) Hin. split.
  - clear Hid. induction c as [|y c IH]; [contradiction|].
    simpl in Hname. inversion Hname as [|? ? Hnotin Hnd]; subst.
    assert (Hnone : forall l, ~ In (asset_name a) (map asset_name l) ->
                              filter (same_key a) l = []).
    { intros l Hl. induction l as [|z l IHl]; [reflexivity|]. simpl.
      unfold same_key at 1. destruct (String.eqb_spec (asset_name z) (asset_name a)) as [Heq|].
      - exfalso. apply Hl. simpl. auto.
      - apply IHl. intros H. apply Hl. simpl. auto. }
    simpl. destruct Hin as [->|Hin].
    + unfold same_key at 1. rewrite String.eqb_refl. f_equal. now apply Hnone.
    + unfold same_key at 1.
      destruct (String.eqb_spec (asset_name y) (asset_name a)) as [Heq|].
      * exfalso. apply Hnotin. rewrite Heq. now apply in_map.
      * now apply IH.
  - intros y Hy Heq. assert (y = a) by (apply (NoDup_map_eq _id c); auto).
    now subst.
Qed.

(** The turn of another asset leaves the documents of [a]'s key alone. *)
Lemma sole_after_other (z x : tracked_asset) (c : list tracked_asset) :
  _id z = _id a ->
  _id x <> _id a ->
  asset_name x <> asset_name a ->
  Forall (fun v => asset v = asset_name x) (_history x) ->
  sole_under_key a z c -> sole_under_key a z (prune_step t c x).
Proof.
  intros Hz Hid Hname Hhist [Hslice Hids].
  unfold prune_step.
  destruct (pop_history_cases t (_history x))
    as [[Hnil Hp]|[(y & h' & Hh & Hy & _ & Hp)|(h1 & v & h2 & Hh & Hv & _ & Hp)]];
    rewrite Hp.
  - split; auto.
  - destruct (Z.ltb_spec t (_at_block y)); [|lia]. split.
    + unfold remove. rewrite filter_filter_weaker; auto.
      intros d Hd. unfold same_key in Hd. apply String.eqb_eq in Hd.
      apply negb_true_iff. apply String.eqb_neq. unfold asset_name in *. congruence.
    + intros d Hd. apply in_remove in Hd. now apply Hids.
  - destruct (Z.ltb_spec t (_at_block v)); [lia|].
    assert (Hv_name : asset v = asset_name x).
    { rewrite Forall_forall in Hhist. apply Hhist. rewrite Hh.
      apply in_or_app. right. now left. }
    set (s := mk_asset (_id x) v h1).
    assert (Hs : same_key a s = false).
    { unfold same_key, asset_name. simpl. apply String.eqb_neq.
      unfold asset_name in *. congruence. }
    split.
    + unfold save. destruct (existsb _ c).
      * rewrite <- Hslice.
        assert (Hno : forall d, In d c -> _id d = _id s -> same_key a d = false).
        { intros d Hd Hds. destruct (same_key a d) eqn:Hnd; auto.
          assert (Hin : In d (filter (same_key a) c)) by (apply filter_In; auto).
          rewrite Hslice in Hin. destruct Hin as [<-|[]].
          simpl in Hds. congruence. }
        clear Hslice Hids. induction c as [|d c IH]; [reflexivity|].
        cbn [map filter]. destruct (Nat.eqb_spec (_id d) (_id s)) as [Heq|Hneq].
        -- rewrite Hs. rewrite (Hno d (or_introl eq_refl) Heq).
           apply IH. intros; apply Hno; simpl; auto.
        -- destruct (same_key a d); [f_equal|]; apply IH; intros; apply Hno; simpl; auto.
      * rewrite filter_app. simpl. rewrite Hs. now rewrite app_nil_r.
    + intros d Hd Hda. apply in_save in Hd. destruct Hd as [->|[Hd _]].
      * simpl in Hda. contradiction.
      * now apply Hids.
Qed.

(** The turn of [a] itself puts the restored version in its place. *)
Lemma sole_after_own_turn (c : list tracked_asset) (h1 h2 : list version) (v : version) :
  _history a = h1 ++ v :: h2 ->
  _at_block v <= t ->
  Forall (fun x => t < _at_block x) h2 ->
  asset v = asset_name a ->
  sole_under_key a a c -> sole_under_key a (mk_asset (_id a) v h1) (prune_step t c a).
Proof.
  intros Hh Hv Hall Hname [Hslice Hids].
  unfold prune_step. rewrite Hh, pop_history_break; auto;
    [|rewrite length_app; simpl; lia].
  destruct (Z.ltb_spec t (_at_block v)); [lia|].
  set (s := mk_asset (_id a) v h1).
  assert (Hs : same_key a s = true).
  { unfold same_key, asset_name. simpl. now apply String.eqb_eq. }
  assert (Hin : In a c).
  { assert (H' : In a (filter (same_key a) c)) by (rewrite Hslice; now left).
    now apply filter_In in H'. }
  split.
  - unfold save.
    assert (Hex : existsb (fun d => Nat.eqb (_id d) (_id s)) c = true).
    { apply existsb_exists. exists a. split; auto. now apply Nat.eqb_eq. }
    rewrite Hex.
    assert (Hgo : filter (same_key a) (map (fun d => if Nat.eqb (_id d) (_id s) then s else d) c)
                  = map (fun d => if Nat.eqb (_id d) (_id s) then s else d)
                        (filter (same_key a) c)).
    { clear Hslice Hin Hex. induction c as [|d c IH]; [reflexivity|].
      cbn [map filter]. destruct (Nat.eqb_spec (_id d) (_id s)) as [Heq|Hneq].
      - rewrite Hs.
        assert (Hd : same_key a d = true).
        { unfold same_key. apply String.eqb_eq. apply Hids; simpl; auto. }
        rewrite Hd. cbn [map].
        destruct (Nat.eqb_spec (_id d) (_id s)); [|contradiction].
        f_equal. apply IH. intros; apply Hids; simpl; auto.
      - destruct (same_key a d); cbn [map].
        + destruct (Nat.eqb_spec (_id d) (_id s)); [contradiction|].
          f_equal. apply IH. intros; apply Hids; simpl; auto.
        + apply IH. intros; apply Hids; simpl; auto. }
    rewrite Hgo, Hslice. simpl. now rewrite Nat.eqb_refl.
  - intros d Hd Hda. apply in_save in Hd. destruct Hd as [->|[Hd _]].
    + unfold asset_name. simpl. exact Hname.
    + now apply Hids.
Qed.

Lemma sole_after_others (z : tracked_asset) (l : list tracked_asset) :
  _id z = _id a ->
  (forall x, In x l ->
     _id x <> _id a /\ asset_name x <> asset_name a /\
     Forall (fun v => asset v = asset_name x) (_history x)) ->
  forall c, sole_under_key a z c -> sole_under_key a z (fold_left (prune_step t) l c).
Proof.
  intros Hz. induction l as [|x l IH]; intros Hl c Hc; [exact Hc|].
  simpl. apply IH; [intros; apply Hl; now right|].
  destruct (Hl x (or_introl eq_refl)) as (H1 & H2 & H3).
  now apply sole_after_other.
Qed.

(** The loop as a whole: the other assets' turns do not matter, so what
    the turn of [a] leaves under its key is what the loop leaves there. *)
Lemma pruned_assets_own_turn (c : list tracked_asset) (z : tracked_asset) :
  well_formed c ->
  In a c ->
  t < _at_block (current a) ->
  _id z = _id a ->
  (forall c', sole_under_key a a c' -> sole_under_key a z (prune_step t c' a)) ->
  filter (same_key a) (pruned_assets t c) = [z].
Proof.
  intros Hwf Hin Hat Hz Hturn.
  pose proof (sole_initially c Hwf Hin) as H0.
  destruct Hwf as (Hid & Hname & Hhist).
  unfold pruned_assets.
  assert (Hl : In a (find (fun x => t <? _at_block (current x)) c)).
  { apply filter_In. split; auto. now apply Z.ltb_lt. }
  pose proof (distinct_keys_filter _id (fun x => t <? _at_block (current x)) c Hid) as Hid'.
  pose proof (distinct_keys_filter asset_name (fun x => t <? _at_block (current x)) c Hname)
    as Hname'.
  assert (Hsub : forall x, In x (find (fun x => t <? _at_block (current x)) c) -> In x c).
  { intros x Hx. now apply filter_In in Hx. }
  unfold find in *.
  destruct (in_split _ _ Hl) as (l1 & l2 & Hsplit).
  rewrite Hsplit in *. clear Hl.
  rewrite map_app in Hid', Hname'. simpl in Hid', Hname'.
  apply NoDup_remove_2 in Hid', Hname'.
  assert (Hothers : forall x, In x (l1 ++ l2) ->
            _id x <> _id a /\ asset_name x <> asset_name a /\
            Forall (fun v => asset v = asset_name x) (_history x)).
  { intros x Hx. repeat split.
    - intros Heq. apply Hid'. rewrite <- Heq, <- map_app. now apply in_map.
    - intros Heq. apply Hname'. rewrite <- Heq, <- map_app. now apply in_map.
    - rewrite Forall_forall in Hhist. apply Hhist. apply Hsub.
      apply in_app_or in Hx. apply in_or_app. simpl. tauto. }
  rewrite fold_left_app. simpl.
  apply sole_after_others; auto.
  - intros x Hx. apply Hothers. apply in_or_app. now right.
  - apply Hturn. apply sole_after_others; auto.
    intros x Hx. apply Hothers. apply in_or_app. now left.
Qed.

(** After the loop the one document under the key of [a] is the newest
    version at or before the target, with the history before it. *)
Lemma pruned_assets_restore (c : list tracked_asset) (h1 h2 : list version)
    (v : version) :
  well_formed c ->
  In a c ->
  t < _at_block (current a) ->
  _history a = h1 ++ v :: h2 ->
  _at_block v <= t ->
  Forall (fun x => t < _at_block x) h2 ->
  filter (same_key a) (pruned_assets t c) = [mk_asset (_id a) v h1].
Proof.
  intros Hwf Hin Hat Hh Hv Hall.
  apply pruned_assets_own_turn; auto.
  intros c'. apply sole_after_own_turn with (h2 := h2); auto.
  destruct Hwf as (_ & _ & Hhist).
  rewrite Forall_forall in Hhist. specialize (Hhist a Hin).
  rewrite Forall_forall in Hhist. apply Hhist. rewrite Hh.
  apply in_or_app. right. now left.
Qed.

(** An asset above the target with no history is still there after the
    loop, as it was. *)
Lemma pruned_assets_keeps_fresh (c : list tracked_asset) :
  well_formed c ->
  In a c ->
  t < _at_block (current a) ->
  _history a = [] ->
  filter (same_key a) (pruned_assets t c) = [a].
Proof.
  intros Hwf Hin Hat Hh.
  apply pruned_assets_own_turn; auto.
  intros c' Hc'. now rewrite prune_step_empty_history.
Qed.

End Restore.

Section Entities.
Context {E : Type}.
Variable config : Config.
Variable hooks : list (Z -> E -> E).

(** C4: for a tracked asset above the target whose history holds a version
    at or before the target, a rollback to a valid target returns, and
    the one document it leaves under the asset's key has the newest such
    version as its current attributes, under the same [_id], with the
    history entries before that version as its [_history]. *)
Theorem rollback_restores_newest_version (t : Z) (w : World E)
    (a : tracked_asset) (h1 h2 : list version) (v : version) :
  rollback_pre t w ->
  well_formed (tracked_assets (mongo_db w)) ->
  In a (tracked_assets (mongo_db w)) ->
  t < _at_block (current a) ->
  _history a = h1 ++ v :: h2 ->
  _at_block v <= t ->
  Forall (fun x => t < _at_block x) h2 ->
  exists b w',
    rollback config hooks t w = Return b w' /\
    find (same_key a) (tracked_assets (mongo_db w')) = [mk_asset (_id a) v h1].
Proof.
  intros [Ht Hex] Hwf Hin Hat Hh Hv Hall.
  destruct (find_one_block_index t _ Hex) as (b & Hb & _).
  eexists. eexists. split; [apply rollback_run; eassumption|].
  simpl. unfold find. eapply pruned_assets_restore; eauto.
Qed.

End Entities.

(** C4 on the scenario: entity A, history [[{_at_block:100, qty:5}]],
    current [{_at_block:300, qty:10}], rolled back to 200. *)
Lemma rollback_restores_newest_version_witness :
  exists b w',
    rollback sample_config sample_hooks 200 sample_world = Return b w' /\
    find (same_key entity_A) (tracked_assets (mongo_db w')) = [entity_A_restored].
Proof.
  apply (rollback_restores_newest_version sample_config sample_hooks 200 sample_world
           entity_A [] [] (mk_version "A" 100 [("qty", VInt 5)]%string)).
  - split; [lia|]. exists (mk_block 200 20000 []). split; [simpl; auto|reflexivity].
  - repeat split; simpl; repeat constructor; simpl; intuition discriminate.
  - simpl. auto.
  - simpl. lia.
  - reflexivity.
  - simpl. lia.
  - constructor.
Defined.

(** C3, at the scenario of entity B: created at block 50, no history,
    rollback to block 10.  The rollback returns and entity B is still in
    [tracked_assets], current at block 50; entity A, created at block
    100 and changed at block 300, is gone. *)
Theorem rollback_leaves_entity_without_history :
  exists w',
    rollback sample_config sample_hooks 10 sample_world
      = Return (mk_block 10 1000 []) w' /\
    tracked_assets (mongo_db w') = [entity_B] /\
    _history entity_B = [] /\
    10 < _at_block (current entity_B).
Proof.
  eexists. split; [vm_compute; reflexivity|].
  repeat split; reflexivity.
Qed.

(** ** Sorted lookups *)

Section Sorted.
Context {A : Type}.
Variable key : A -> Z.

Lemma first_sorted_none (dir : direction) (c : list A) :
  first_sorted key dir c = None <-> c = [].
Proof.
  destruct c as [|d c]; simpl; [tauto|].
  split; [|discriminate].
  destruct (first_sorted key dir c) as [d'|]; [|discriminate].
  destruct (before dir (key d') (key d)); discriminate.
Qed.

Lemma first_sorted_descending (c : list A) (d : A) :
  first_sorted key DESCENDING c = Some d ->
  In d c /\ forall d', In d' c -> key d' <= key d.
Proof.
  revert d. induction c as [|x c IH]; simpl; intros d Hd; [discriminate|].
  destruct (first_sorted key DESCENDING c) as [y|] eqn:Hy.
  - destruct (IH y eq_refl) as [Hin Hmax].
    destruct (Z.ltb_spec (key x) (key y)); inversion Hd; subst; split; auto.
    + intros d' [<-|Hd']; [lia|auto].
    + intros d' [<-|Hd']; [lia|]. specialize (Hmax d' Hd'). lia.
  - apply first_sorted_none in Hy. subst c. inversion Hd; subst. split; auto.
    intros d' [<-|[]]. lia.
Qed.

Lemma first_sorted_ascending (c : list A) (d : A) :
  first_sorted key ASCENDING c = Some d ->
  In d c /\ forall d', In d' c -> key d <= key d'.
Proof.
  revert d. induction c as [|x c IH]; simpl; intros d Hd; [discriminate|].
  destruct (first_sorted key ASCENDING c) as [y|] eqn:Hy.
  - destruct (IH y eq_refl) as [Hin Hmin].
    destruct (Z.ltb_spec (key y) (key x)); inversion Hd; subst; split; auto.
    + intros d' [<-|Hd']; [lia|auto].
    + intros d' [<-|Hd']; [lia|]. specialize (Hmin d' Hd'). lia.
  - apply first_sorted_none in Hy. subst c. inversion Hd; subst. split; auto.
    intros d' [<-|[]]. lia.
Qed.

Lemma find_one_sorted_none (q : A -> bool) (dir : direction) (c : list A) :
  find_one_sorted q key dir c = None <-> (forall d, In d c -> q d = false).
Proof.
  unfold find_one_sorted. rewrite first_sorted_none. split.
  - intros Hf d Hd. destruct (q d) eqn:Hq; auto.
    assert (Hin : In d (filter q c)) by (apply filter_In; auto).
    rewrite Hf in Hin. contradiction.
  - intros Hall. induction c as [|x c IH]; [reflexivity|]. simpl.
    rewrite (Hall x (or_introl eq_refl)). apply IH. intros; apply Hall; now right.
Qed.

Lemma find_one_sorted_descending (q : A -> bool) (c : list A) (d : A) :
  find_one_sorted q key DESCENDING c = Some d ->
  In d c /\ q d = true /\ forall d', In d' c -> q d' = true -> key d' <= key d.
Proof.
  unfold find_one_sorted. intros H. apply first_sorted_descending in H.
  destruct H as [Hin Hmax]. apply filter_In in Hin. destruct Hin as [Hin Hq].
  repeat split; auto. intros d' Hd' Hq'. apply Hmax. apply filter_In. auto.
Qed.

Lemma find_one_sorted_ascending (q : A -> bool) (c : list A) (d : A) :
  find_one_sorted q key ASCENDING c = Some d ->
  In d c /\ q d = true /\ forall d', In d' c -> q d' = true -> key d <= key d'.
Proof.
  unfold find_one_sorted. intros H. apply first_sorted_ascending in H.
  destruct H as [Hin Hmin]. apply filter_In in Hin. destruct Hin as [Hin Hq].
  repeat split; auto. intros d' Hd' Hq'. apply Hmin. apply filter_In. auto.
Qed.

End Sorted.

(** ** get_block_indexes_for_dates *)

Section BlockRange.
Context {E : Type}.
Variable config : Config.

(** The start component, as the code computes it. *)
Lemma start_lookup (blocks : list block) (s : Z) :
  start_index_ok config blocks (Some s)
    (match find_one_sorted (fun b => block_time b <=? s) block_time DESCENDING blocks with
     | None => BLOCK_FIRST config
     | Some b => block_index b
     end).
Proof.
  simpl. destruct (find_one_sorted _ _ _ blocks) as [b|] eqn:Hf.
  - left. exists b. split; auto.
    apply find_one_sorted_descending in Hf. destruct Hf as (Hin & Hq & Hmax).
    apply Z.leb_le in Hq. repeat split; auto.
    intros b' Hb' Hle. apply Hmax; auto. now apply Z.leb_le.
  - right. split; auto. rewrite find_one_sorted_none in Hf.
    intros b Hb. specialize (Hf b Hb). apply Z.leb_gt in Hf. lia.
Qed.

(** The end component for a given [end_dt], as the code computes it, when
    there is a block at all. *)
Lemma end_lookup (st : State) (blocks : list block) (e : Z) :
  blocks <> [] ->
  exists i,
    (match find_one_sorted (fun b => e <=? block_time b) block_time ASCENDING blocks with
     | Some b => Some (block_index b)
     | None => option_map block_index
                 (find_one_sorted (fun _ => true) block_index DESCENDING blocks)
     end) = Some i /\
    end_index_ok st blocks (Some e) i.
Proof.
  intros Hne. simpl.
  destruct (find_one_sorted _ block_time ASCENDING blocks) as [b|] eqn:Hf.
  - exists (block_index b). split; auto. left. exists b. split; auto.
    apply find_one_sorted_ascending in Hf. destruct Hf as (Hin & Hq & Hmin).
    apply Z.leb_le in Hq. repeat split; auto.
    intros b' Hb' Hle. apply Hmin; auto. now apply Z.leb_le.
  - rewrite find_one_sorted_none in Hf.
    destruct (find_one_sorted _ block_index DESCENDING blocks) as [b|] eqn:Hh.
    + exists (block_index b). split; auto. right. split.
      * intros b' Hb'. specialize (Hf b' Hb'). apply Z.leb_gt in Hf. lia.
      * exists b. split; auto.
        apply find_one_sorted_descending in Hh. destruct Hh as (Hin & _ & Hmax).
        split; auto.
    + exfalso. rewrite find_one_sorted_none in Hh.
      destruct blocks as [|b blocks]; [congruence|].
      specialize (Hh b (or_introl eq_refl)). discriminate.
Qed.

(** What the lookup returns, in the words of its contract. *)
Lemma block_indexes_lookup (start_dt end_dt : option Z) (w : World E) :
  end_dt = None \/ processed_blocks (mongo_db w) <> [] ->
  exists s e,
    get_block_indexes_for_dates config start_dt end_dt w = Return (s, e) w /\
    start_index_ok config (processed_blocks (mongo_db w)) start_dt s /\
    end_index_ok (state w) (processed_blocks (mongo_db w)) end_dt e.
Proof.
  intros Hdef.
  unfold get_block_indexes_for_dates.
  pose proof (start_lookup (processed_blocks (mongo_db w))) as Hstart.
  destruct start_dt as [s|]; destruct end_dt as [e|].
  - destruct Hdef as [|Hne]; [discriminate|].
    destruct (end_lookup (state w) _ e Hne) as (i & Hi & Hok).
    eexists. exists i. unfold bind, query, ret. 
    destruct (find_one_sorted _ block_time ASCENDING _) as [b|].
    + inversion Hi; subst. split; [reflexivity|]. split; auto.
    + destruct (find_one_sorted _ block_index DESCENDING _) as [b|];
        [|discriminate].
      inversion Hi; subst. split; [reflexivity|]. split; auto.
  - eexists. eexists. unfold bind, query, ret, get_state.
    split; [reflexivity|]. split; [apply Hstart|reflexivity].
  - destruct Hdef as [|Hne]; [discriminate|].
    destruct (end_lookup (state w) _ e Hne) as (i & Hi & Hok).
    exists (BLOCK_FIRST config), i. unfold bind, query, ret.
    destruct (find_one_sorted _ block_time ASCENDING _) as [b|].
    + inversion Hi; subst. split; [reflexivity|]. split; [reflexivity|auto].
    + destruct (find_one_sorted _ block_index DESCENDING _) as [b|];
        [|discriminate].
      inversion Hi; subst. split; [reflexivity|]. split; [reflexivity|auto].
  - eexists. eexists. unfold bind, query, ret, get_state.
    split; [reflexivity|]. split; reflexivity.
Qed.

(** X25: for dates that fit a query, and when [end_dt] is absent or some
    block is known, [get_block_indexes_for_dates] returns, leaves the
    world alone, and the pair it returns is: [BLOCK_FIRST] for an absent
    [start_dt], otherwise the index of the latest block with
    [block_time <= start_dt], [BLOCK_FIRST] when there is none; the
    latest-processed-block counter for an absent [end_dt], otherwise the
    index of the earliest block with [block_time >= end_dt], the highest
    known index when there is none. *)
Theorem block_range_contract (start_dt end_dt : option Z) (w : World E) :
  date_fits start_dt ->
  date_fits end_dt ->
  end_dt = None \/ processed_blocks (mongo_db w) <> [] ->
  exists s e,
    get_block_indexes_for_dates config start_dt end_dt w = Return (s, e) w /\
    start_index_ok config (processed_blocks (mongo_db w)) start_dt s /\
    end_index_ok (state w) (processed_blocks (mongo_db w)) end_dt e.
Proof. intros _ _. apply block_indexes_lookup. Qed.

(** With no block at all, a given [end_dt] makes the lookup of the
    highest block subscript [None]. *)
Lemma get_block_indexes_for_dates_empty (start_dt : option Z) (e : Z) (w : World E) :
  processed_blocks (mongo_db w) = [] ->
  get_block_indexes_for_dates config start_dt (Some e) w = Raise TypeError w.
Proof.
  intros Hnil. unfold get_block_indexes_for_dates, bind, query, ret.
  destruct start_dt; cbv beta; rewrite Hnil; simpl; rewrite Hnil; reflexivity.
Qed.

End BlockRange.

(** X25 on the sample world: a window between blocks 100 and 200 at one
    end and 200 and 300 at the other. *)
Lemma block_range_contract_witness :
  exists s e,
    get_block_indexes_for_dates sample_config (Some 15000) (Some 25000) sample_world
      = Return (s, e) sample_world /\
    start_index_ok sample_config (processed_blocks sample_db) (Some 15000) s /\
    end_index_ok (state sample_world) (processed_blocks sample_db) (Some 25000) e.
Proof.
  apply (block_range_contract sample_config (Some 15000) (Some 25000) sample_world).
  - simpl. unfold fits_int64. lia.
  - simpl. unfold fits_int64. lia.
  - right. simpl. discriminate.
Defined.

(** C6, on the store [reset_db_state] leaves, which has no processed
    block: with an end date given, no block is at or after it, the lookup
    of the highest block finds nothing either, and subscripting that
    result raises [TypeError]; no pair is returned, with or without a
    start date. *)
Theorem get_block_indexes_for_dates_raises_on_empty_store :
  exists ac w',
    reset_db_state sample_config sample_world = Return ac w' /\
    processed_blocks (mongo_db w') = [] /\
    get_block_indexes_for_dates sample_config None (Some 25000) w'
      = Raise TypeError w' /\
    get_block_indexes_for_dates sample_config (Some 15000) (Some 25000) w'
      = Raise TypeError w'.
Proof.
  eexists. eexists. split; [vm_compute; reflexivity|].
  repeat split; reflexivity.
Qed.

Section BlockRangeOrder.
Context {E : Type}.
Variable config : Config.

(** C7, amended: on a store with at least one block, where block indexes
    grow with block times, no block is before [BLOCK_FIRST] and the
    latest-processed-block counter is not below any block, and for a
    [start_dt] that is not after [end_dt] when both are given, the
    lookup returns a pair with start at or before end. *)
Theorem block_range_ordered (start_dt end_dt : option Z) (w : World E) :
  processed_blocks (mongo_db w) <> [] ->
  time_ordered (processed_blocks (mongo_db w)) ->
  none_before_first config (processed_blocks (mongo_db w)) ->
  counter_at_tip (state w) (processed_blocks (mongo_db w)) ->
  (forall s e, start_dt = Some s -> end_dt = Some e -> s <= e) ->
  exists s e,
    get_block_indexes_for_dates config start_dt end_dt w = Return (s, e) w /\
    s <= e.
Proof.
  intros Hne Hord Hfirst Htip Hwin.
  destruct (block_indexes_lookup config start_dt end_dt w (or_intror Hne))
    as (s & e & Hrun & Hs & He).
  exists s, e. split; auto.
  assert (Hsome : exists b, In b (processed_blocks (mongo_db w))).
  { destruct (processed_blocks (mongo_db w)) as [|b l]; [congruence|].
    exists b. now left. }
  destruct Hsome as (b0 & Hb0).
  assert (Hfirst_end : BLOCK_FIRST config <= e).
  { destruct end_dt as [e0|]; simpl in He.
    - destruct He as [(b & (Hb & _) & ->)|(_ & b & (Hb & _) & ->)]; now apply Hfirst.
    - subst e. specialize (Hfirst b0 Hb0). specialize (Htip b0 Hb0). lia. }
  destruct start_dt as [s0|]; simpl in Hs; [|subst s; exact Hfirst_end].
  destruct Hs as [(b1 & (Hb1 & Ht1 & _) & ->)|(_ & ->)]; [|exact Hfirst_end].
  destruct end_dt as [e0|]; simpl in He.
  - specialize (Hwin s0 e0 eq_refl eq_refl).
    destruct He as [(b2 & (Hb2 & Ht2 & _) & ->)|(_ & b2 & (Hb2 & Hmax) & ->)].
    + apply Hord; auto. lia.
    + now apply Hmax.
  - subst e. now apply Htip.
Qed.

End BlockRangeOrder.

(** C7 as stated fails on the sample world, which has blocks at and after
    [BLOCK_FIRST]: a window given end first resolves to (300, 100). *)
Lemma block_range_ordered_counterexample :
  (exists b, In b (processed_blocks (mongo_db sample_world)) /\
             BLOCK_FIRST sample_config <= block_index b) /\
  get_block_indexes_for_dates sample_config (Some 30000) (Some 10000) sample_world
    = Return (300, 100) sample_world /\
  ~ (300 <= 100).
Proof.
  split; [|split].
  - exists (mk_block 100 10000 []). split; [simpl; auto|simpl; lia].
  - vm_compute. reflexivity.
  - lia.
Qed.

(** C7, amended, on the sample world. *)
Lemma block_range_ordered_witness :
  exists s e,
    get_block_indexes_for_dates sample_config (Some 15000) (Some 25000) sample_world
      = Return (s, e) sample_world /\
    s <= e.
Proof.
  apply (block_range_ordered sample_config (Some 15000) (Some 25000) sample_world).
  - simpl. discriminate.
  - intros b1 b2 H1 H2. simpl in H1, H2.
    repeat (destruct H1 as [H1|H1]; [subst b1|]); try contradiction;
    repeat (destruct H2 as [H2|H2]; [subst b2|]); try contradiction; simpl; lia.
  - intros b Hb. simpl in Hb.
    repeat (destruct Hb as [Hb|Hb]; [subst b; simpl; lia|]). contradiction.
  - intros b Hb. simpl in Hb.
    repeat (destruct Hb as [Hb|Hb]; [subst b; simpl; lia|]). contradiction.
  - intros s e Hs He. inversion Hs; inversion He; subst. lia.
Defined.

(** ** reset_db_state *)

Section Reset.
Context {E : Type}.
Variable config : Config.

(** The world [reset_db_state] leaves and the document it returns. *)
Lemma reset_db_state_run (w : World E) :
  exists oid n,
    reset_db_state config w =
    Return
      (mk_app_config oid (DB_VERSION config) (TESTNET config) None None None
                     (BLOCK_FIRST config))
      (mk_world
         (mk_db [] 
                [mk_asset n (base_asset config (XCP config)) [];
                 mk_asset (S n) (base_asset config (BTC config)) []]
                [] [] [] []
                []
                (asset_pair_market_info (mongo_db w))
                [] [] [] []
                (mk_app_config oid (DB_VERSION config) (TESTNET config) None None None
                               (BLOCK_FIRST config)
                 :: tl (app_config (mongo_db w)))
                (preferences (mongo_db w))
                (login_history (mongo_db w))
                (chat_handles (mongo_db w))
                (chat_history (mongo_db w))
                []
                (mempool (mongo_db w)))
         (mk_state 0 (-1) (caught_up (state w)))
         (blockinfo_cache w)
         (hook_state w)
         (S (S n))).
Proof.
  destruct w as [[? ? ? ? ? ? ? ? ? ? ? ? ac ? ? ? ? ? ?] st cache e n].
  unfold reset_db_state, app_config_upsert, tracked_assets_insert, new_ObjectId,
    for_each, drop.
  destruct ac as [|d rest].
  - exists n, (S n). run_writes. reflexivity.
  - exists (ac_id d), n. run_writes. reflexivity.
Qed.

(** C8: [reset_db_state] returns, and leaves [processed_blocks],
    [balance_changes], [trades], [asset_marketcap_history] and
    [transaction_stats] empty; [tracked_assets] holding exactly the two
    genesis assets, XCP then BTC, each current at [BLOCK_FIRST] with an
    empty history; the first document of [app_config], which is the one
    returned, recording [DB_VERSION], with whatever followed it before
    still behind it; the latest-processed-block counter at 0 and the last
    message index at -1. *)
Theorem reset_db_state_spec (w : World E) :
  exists ac w',
    reset_db_state config w = Return ac w' /\
    processed_blocks (mongo_db w') = [] /\
    balance_changes (mongo_db w') = [] /\
    trades (mongo_db w') = [] /\
    asset_marketcap_history (mongo_db w') = [] /\
    transaction_stats (mongo_db w') = [] /\
    map current (tracked_assets (mongo_db w'))
      = [base_asset config (XCP config); base_asset config (BTC config)] /\
    map asset_name (tracked_assets (mongo_db w')) = [XCP config; BTC config] /\
    Forall (fun a => _at_block (current a) = BLOCK_FIRST config /\ _history a = [])
           (tracked_assets (mongo_db w')) /\
    app_config (mongo_db w') = ac :: tl (app_config (mongo_db w)) /\
    db_version ac = DB_VERSION config /\
    my_latest_block (state w') = 0 /\
    last_message_index (state w') = -1.
Proof.
  destruct (reset_db_state_run w) as (oid & n & Hrun).
  eexists. eexists. split; [exact Hrun|].
  simpl. repeat split; auto.
Qed.

(** What a reset does to the collections that are not to be purged:
    [preferences], [login_history], [chat_handles] and [chat_history]
    stay, [feeds] is dropped. *)
Lemma reset_db_state_frame (w : World E) :
  exists ac w',
    reset_db_state config w = Return ac w' /\
    preferences (mongo_db w') = preferences (mongo_db w) /\
    login_history (mongo_db w') = login_history (mongo_db w) /\
    chat_handles (mongo_db w') = chat_handles (mongo_db w) /\
    chat_history (mongo_db w') = chat_history (mongo_db w) /\
    feeds (mongo_db w') = [].
Proof.
  destruct (reset_db_state_run w) as (oid & n & Hrun).
  eexists. eexists. split; [exact Hrun|].
  simpl. repeat split; auto.
Qed.

(** A rollback leaves all of them as they were. *)
Lemma rollback_frame (hooks : list (Z -> E -> E)) (t : Z) (w : World E) :
  rollback_pre t w ->
  exists b w',
    rollback config hooks t w = Return b w' /\
    preferences (mongo_db w') = preferences (mongo_db w) /\
    login_history (mongo_db w') = login_history (mongo_db w) /\
    chat_handles (mongo_db w') = chat_handles (mongo_db w) /\
    chat_history (mongo_db w') = chat_history (mongo_db w) /\
    feeds (mongo_db w') = feeds (mongo_db w).
Proof.
  intros [Ht Hex].
  destruct (find_one_block_index t _ Hex) as (b & Hb & _).
  eexists. eexists. split; [apply rollback_run; eassumption|].
  simpl. repeat split; auto.
Qed.

End Reset.

(** C9, on the sample world: its [feeds] collection has a subscription,
    and [reset_db_state] returns with [feeds] empty. *)
Theorem reset_db_state_drops_feeds :
  exists ac w',
    reset_db_state sample_config sample_world = Return ac w' /\
    feeds (mongo_db sample_world) = [[("source", VStr "feed")]%string] /\
    feeds (mongo_db w') = [].
Proof.
  eexists. eexists. split; [vm_compute; reflexivity|].
  split; reflexivity.
Qed.

(** * Beyond the contract: each asset by itself *)

Lemma flat_map_singletons {A : Type} (c : list A) :
  flat_map (fun d => [d]) c = c.
Proof. induction c as [|d c IH]; simpl; [|rewrite IH]; reflexivity. Qed.

Lemma flat_map_pointwise {A B : Type} (f g : A -> list B) (c : list A) :
  (forall d, In d c -> f d = g d) -> flat_map f c = flat_map g c.
Proof.
  induction c as [|d c IH]; simpl; intros H; [reflexivity|].
  rewrite H by now left. f_equal. apply IH. intros; apply H; now right.
Qed.

Lemma flat_map_twice {A B C : Type} (f : A -> list B) (g : B -> list C)
    (c : list A) :
  flat_map g (flat_map f c) = flat_map (fun d => flat_map g (f d)) c.
Proof.
  induction c as [|d c IH]; simpl; [reflexivity|].
  now rewrite flat_map_app, IH.
Qed.

Lemma filter_as_flat_map {A : Type} (p : A -> bool) (c : list A) :
  filter p c = flat_map (fun d => if p d then [d] else []) c.
Proof.
  induction c as [|d c IH]; simpl; [reflexivity|].
  destruct (p d); simpl; now rewrite IH.
Qed.

Lemma map_as_flat_map {A B : Type} (f : A -> B) (c : list A) :
  map f c = flat_map (fun d => [f d]) c.
Proof.
  induction c as [|d c IH]; simpl; [reflexivity|]. now rewrite IH.
Qed.

Section OneByOne.
Variable t : Z.

(** What a turn leaves is the asset itself or one of its versions at or
    before the target, with the history before that version. *)
Lemma turn_cases (a e : tracked_asset) :
  In e (turn t a) ->
  e = a \/
  exists h1 v h2, _history a = h1 ++ v :: h2 /\ _at_block v <= t /\
                  Forall (fun x => t < _at_block x) h2 /\
                  e = mk_asset (_id a) v h1.
Proof.
  unfold turn.
  destruct (pop_history_cases t (_history a))
    as [[Hnil Hp]|[(x & h' & Hh & Hx & _ & Hp)|(h1 & v & h2 & Hh & Hv & Hall & Hp)]];
    rewrite Hp.
  - intros [<-|[]]. now left.
  - destruct (Z.ltb_spec t (_at_block x)); [intros []|lia].
  - destruct (Z.ltb_spec t (_at_block v)); [lia|].
    intros [<-|[]]. right. exists h1, v, h2. auto.
Qed.

Lemma turn_left_of (a e : tracked_asset) :
  Forall (fun v => asset v = asset_name a) (_history a) ->
  In e (turn t a) -> left_of t a e.
Proof.
  intros Hhist He. apply turn_cases in He.
  destruct He as [->|(h1 & v & h2 & Hh & Hv & _ & ->)].
  - repeat split; auto. exists []. now rewrite app_nil_r.
  - assert (Hin : In v (_history a)).
    { rewrite Hh. apply in_or_app. right. now left. }
    repeat split; simpl; auto.
    + unfold asset_name at 1. simpl. rewrite Forall_forall in Hhist. now apply Hhist.
    + exists (v :: h2). exact Hh.
Qed.

Lemma turn_at_most_one (a : tracked_asset) :
  turn t a = [] \/ exists e, turn t a = [e].
Proof.
  unfold turn. destruct (pop_history _ t (_history a) None) as [[pv|] h].
  - destruct (t <? _at_block pv); eauto.
  - eauto.
Qed.

(** In a well-formed collection the [_id] and the key pick the same
    document. *)
Lemma same_id_same_doc (c : list tracked_asset) (a d : tracked_asset) :
  NoDup (map _id c) -> In a c -> In d c -> _id d = _id a -> d = a.
Proof. intros Hnd Ha Hd Heq. now apply (NoDup_map_eq _id c). Qed.

Lemma same_key_same_doc (c : list tracked_asset) (a d : tracked_asset) :
  NoDup (map asset_name c) -> In a c -> In d c ->
  asset_name d = asset_name a -> d = a.
Proof. intros Hnd Ha Hd Heq. now apply (NoDup_map_eq asset_name c). Qed.

(** One turn of the loop, seen from the collection: the document of [a]
    gives way to what its turn leaves, the others stay. *)
Lemma prune_step_pointwise (c : list tracked_asset) (a : tracked_asset) :
  NoDup (map _id c) ->
  NoDup (map asset_name c) ->
  In a c ->
  prune_step t c a
  = flat_map (fun d => if Nat.eqb (_id d) (_id a) then turn t a else [d]) c.
Proof.
  intros Hid Hname Ha. unfold prune_step, turn.
  destruct (pop_history _ t (_history a) None) as [[pv|] h].
  - destruct (t <? _at_block pv).
    + unfold remove. rewrite filter_as_flat_map. apply flat_map_pointwise.
      intros d Hd.
      destruct (String.eqb_spec (asset (current d)) (asset (current a))) as [Heq|Hneq];
        destruct (Nat.eqb_spec (_id d) (_id a)) as [Heq'|Hneq']; simpl; auto.
      * exfalso. apply Hneq'.
        assert (d = a) by (eapply same_key_same_doc; eauto). now subst.
      * exfalso. apply Hneq.
        assert (d = a) by (eapply same_id_same_doc; eauto). now subst.
    + unfold save.
      assert (Hex : existsb (fun d => Nat.eqb (_id d) (_id (mk_asset (_id a) pv h))) c
                    = true).
      { apply existsb_exists. exists a. split; auto. simpl. apply Nat.eqb_refl. }
      rewrite Hex, map_as_flat_map. apply flat_map_pointwise.
      intros d Hd. simpl. destruct (Nat.eqb (_id d) (_id a)); reflexivity.
  - rewrite <- (flat_map_singletons c) at 1. apply flat_map_pointwise.
    intros d Hd. destruct (Nat.eqb_spec (_id d) (_id a)) as [Heq|]; auto.
    f_equal. eapply same_id_same_doc; eauto.
Qed.

(** Replacing documents by what is left of them keeps a collection
    well formed. *)
Lemma well_formed_flat_map (g : tracked_asset -> list tracked_asset)
    (c : list tracked_asset) :
  well_formed c ->
  (forall d, In d c -> g d = [] \/ exists e, g d = [e] /\ left_of t d e) ->
  well_formed (flat_map g c).
Proof.
  intros (Hid & Hname & Hhist) Hg.
  assert (Hids : forall l, (forall d, In d l -> In d c) ->
             forall i, In i (map _id (flat_map g l)) -> In i (map _id l)).
  { intros l Hl i Hi. apply in_map_iff in Hi. destruct Hi as (e & <- & He).
    apply in_flat_map in He. destruct He as (d & Hd & He).
    destruct (Hg d (Hl d Hd)) as [Hnil|(e' & Hone & Hleft)].
    - rewrite Hnil in He. contradiction.
    - rewrite Hone in He. destruct He as [<-|[]].
      destruct Hleft as (-> & _). now apply in_map. }
  assert (Hnames : forall l, (forall d, In d l -> In d c) ->
             forall i, In i (map asset_name (flat_map g l)) -> In i (map asset_name l)).
  { intros l Hl i Hi. apply in_map_iff in Hi. destruct Hi as (e & <- & He).
    apply in_flat_map in He. destruct He as (d & Hd & He).
    destruct (Hg d (Hl d Hd)) as [Hnil|(e' & Hone & Hleft)].
    - rewrite Hnil in He. contradiction.
    - rewrite Hone in He. destruct He as [<-|[]].
      destruct Hleft as (_ & -> & _). now apply in_map. }
  repeat split.
  - clear Hname Hhist Hnames.
    induction c as [|d c IH]; simpl; [constructor|].
    inversion Hid as [|? ? Hfresh Hid']; subst.
    assert (IH' : NoDup (map _id (flat_map g c))).
    { apply IH; auto.
      - intros; apply Hg; now right.
      - intros l Hl. apply Hids. intros; right; now apply Hl. }
    destruct (Hg d (or_introl eq_refl)) as [Hnil|(e & Hone & Hleft)].
    + now rewrite Hnil.
    + rewrite Hone. simpl. constructor; auto.
      destruct Hleft as (-> & _). intros Hin. apply Hfresh.
      apply (Hids c); auto. intros; now right.
  - clear Hid Hhist Hids.
    induction c as [|d c IH]; simpl; [constructor|].
    inversion Hname as [|? ? Hfresh Hname']; subst.
    assert (IH' : NoDup (map asset_name (flat_map g c))).
    { apply IH; auto.
      - intros; apply Hg; now right.
      - intros l Hl. apply Hnames. intros; right; now apply Hl. }
    destruct (Hg d (or_introl eq_refl)) as [Hnil|(e & Hone & Hleft)].
    + now rewrite Hnil.
    + rewrite Hone. simpl. constructor; auto.
      destruct Hleft as (_ & -> & _). intros Hin. apply Hfresh.
      apply (Hnames c); auto. intros; now right.
  - rewrite Forall_forall. intros e He.
    apply in_flat_map in He. destruct He as (d & Hd & He).
    rewrite Forall_forall in Hhist. specialize (Hhist d Hd).
    destruct (Hg d Hd) as [Hnil|(e' & Hone & Hleft)].
    + rewrite Hnil in He. contradiction.
    + rewrite Hone in He. destruct He as [<-|[]].
      destruct Hleft as (_ & Hn & (h2 & Hh) & _).
      rewrite Hn. rewrite Hh in Hhist. apply Forall_app in Hhist. tauto.
Qed.

End OneByOne.

Section WholeLoop.
Variable t : Z.

Lemma turn_keeps_id (a e : tracked_asset) : In e (turn t a) -> _id e = _id a.
Proof.
  intros He. apply turn_cases in He.
  destruct He as [->|(h1 & v & h2 & _ & _ & _ & ->)]; reflexivity.
Qed.

(** The loop over a list [l] of documents of a well-formed collection
    gives each of them its turn and leaves the others alone. *)
Lemma prune_loop_pointwise (l : list tracked_asset) :
  forall c : list tracked_asset,
  well_formed c ->
  NoDup (map _id l) ->
  incl l c ->
  fold_left (prune_step t) l c = flat_map (turns t l) c.
Proof.
  induction l as [|a l IH]; intros c Hwf Hnd Hincl.
  - simpl. rewrite <- (flat_map_singletons c) at 1.
    apply flat_map_pointwise. reflexivity.
  - simpl fold_left.
    pose proof Hwf as (Hid & Hname & Hhist).
    assert (Ha : In a c) by (apply Hincl; now left).
    simpl in Hnd. apply NoDup_cons_iff in Hnd. destruct Hnd as [Hfresh Hnd].
    rewrite prune_step_pointwise by assumption.
    set (g := fun d => if Nat.eqb (_id d) (_id a) then turn t a else [d]).
    assert (Hg : forall d, In d c -> g d = [] \/ exists e, g d = [e] /\ left_of t d e).
    { intros d Hd. unfold g. destruct (Nat.eqb_spec (_id d) (_id a)) as [Heq|Hneq].
      - assert (d = a) by (eapply same_id_same_doc; eauto). subst d.
        destruct (turn_at_most_one t a) as [Hnil|(e & He)]; auto.
        right. exists e. split; auto. apply turn_left_of.
        + rewrite Forall_forall in Hhist. now apply Hhist.
        + rewrite He. now left.
      - right. exists d. split; auto. repeat split; auto.
        exists []. now rewrite app_nil_r. }
    rewrite IH.
    + rewrite flat_map_twice. apply flat_map_pointwise. intros d Hd.
      unfold g, turns. simpl existsb.
      destruct (Nat.eqb_spec (_id d) (_id a)) as [Heq|Hneq].
      * rewrite <- Heq, Nat.eqb_refl. simpl orb.
        assert (d = a) by (eapply same_id_same_doc; eauto). subst d.
        rewrite <- (flat_map_singletons (turn t a)) at 2.
        apply flat_map_pointwise. intros e He.
        apply turn_keeps_id in He.
        destruct (existsb (fun x => Nat.eqb (_id x) (_id e)) l) eqn:Hex; auto.
        exfalso. apply existsb_exists in Hex. destruct Hex as (x & Hx & Hxe).
        apply Nat.eqb_eq in Hxe. apply Hfresh. rewrite <- He, <- Hxe.
        now apply in_map.
      * destruct (Nat.eqb_spec (_id a) (_id d)) as [Heq'|_]; [congruence|].
        simpl. now rewrite app_nil_r.
    + now apply (well_formed_flat_map t).
    + exact Hnd.
    + intros x Hx. apply in_flat_map. exists x. split.
      * apply Hincl. now right.
      * unfold g. destruct (Nat.eqb_spec (_id x) (_id a)) as [Heq|_]; [|now left].
        exfalso. apply Hfresh. rewrite <- Heq. now apply in_map.
Qed.

(** The whole pruning loop on a well-formed collection, document by
    document. *)
Lemma pruned_assets_pointwise (c : list tracked_asset) :
  well_formed c -> pruned_assets t c = flat_map (reconstruct t) c.
Proof.
  intros Hwf. pose proof Hwf as (Hid & _ & _). unfold pruned_assets, find.
  rewrite prune_loop_pointwise; auto.
  - apply flat_map_pointwise. intros d Hd. unfold turns, reconstruct.
    destruct (t <? _at_block (current d)) eqn:Hat.
    + assert (Hex : existsb (fun x => Nat.eqb (_id x) (_id d))
                      (filter (fun a => t <? _at_block (current a)) c) = true).
      { apply existsb_exists. exists d. split; [|apply Nat.eqb_refl].
        apply filter_In. auto. }
      now rewrite Hex.
    + destruct (existsb _ (filter _ c)) eqn:Hex; auto.
      exfalso. apply existsb_exists in Hex. destruct Hex as (x & Hx & Hxd).
      apply filter_In in Hx. destruct Hx as [Hx Hxat]. apply Nat.eqb_eq in Hxd.
      assert (x = d) by (eapply same_id_same_doc; eauto). subst x. congruence.
  - now apply distinct_keys_filter.
  - intros x Hx. apply filter_In in Hx. tauto.
Qed.

(** Each document of a well-formed collection leaves at most one
    document, which is what is left of it. *)
Lemma reconstruct_left_of (c : list tracked_asset) (d : tracked_asset) :
  well_formed c -> In d c ->
  reconstruct t d = [] \/ exists e, reconstruct t d = [e] /\ left_of t d e.
Proof.
  intros (_ & _ & Hhist) Hd. unfold reconstruct.
  destruct (t <? _at_block (current d)).
  - destruct (turn_at_most_one t d) as [Hnil|(e & He)]; auto.
    right. exists e. split; auto. apply turn_left_of.
    + rewrite Forall_forall in Hhist. now apply Hhist.
    + rewrite He. now left.
  - right. exists d. split; auto. repeat split; auto.
    exists []. now rewrite app_nil_r.
Qed.

Lemma filter_none {A : Type} (p : A -> bool) (l : list A) :
  (forall x, In x l -> p x = false) -> filter p l = [].
Proof.
  induction l as [|x l IH]; simpl; intros H; [reflexivity|].
  rewrite (H x (or_introl eq_refl)). apply IH. intros; apply H; now right.
Qed.

(** What the loop leaves under the key of one document of a well-formed
    collection is what is left of that document. *)
Lemma under_key_flat_map (g : tracked_asset -> list tracked_asset)
    (c : list tracked_asset) (a : tracked_asset) :
  NoDup (map asset_name c) ->
  In a c ->
  (forall d e, In d c -> In e (g d) -> asset_name e = asset_name d) ->
  filter (same_key a) (flat_map g c) = filter (same_key a) (g a).
Proof.
  intros Hname Ha Hg.
  assert (Hother : forall e d, In d c -> In e (g d) ->
                     asset_name d <> asset_name a -> same_key a e = false).
  { intros e d Hd He Hneq. unfold same_key. apply String.eqb_neq.
    rewrite (Hg d e Hd He). exact Hneq. }
  induction c as [|d c IH]; [contradiction|].
  simpl in Hname. apply NoDup_cons_iff in Hname. destruct Hname as [Hfresh Hname].
  simpl. rewrite filter_app.
  destruct Ha as [->|Ha].
  - rewrite (filter_none _ (flat_map g c)); [now rewrite app_nil_r|].
    intros e He. apply in_flat_map in He. destruct He as (x & Hx & He).
    apply (Hother e x); [now right|exact He|].
    intros Heq. apply Hfresh. rewrite <- Heq. now apply in_map.
  - rewrite (filter_none _ (g d)).
    + simpl. apply IH; auto.
      * intros x e Hx He. apply (Hg x e); auto. now right.
      * intros e x Hx He. apply (Hother e x); auto. now right.
    + intros e He. apply (Hother e d); [now left|exact He|].
      intros Heq. apply Hfresh. rewrite Heq. now apply in_map.
Qed.

End WholeLoop.

(** * Beyond the contract: rollback *)

(** Discharge the side conditions of the statements on the sample world. *)
Ltac sample_block i tm :=
  split; [lia|]; exists (mk_block i tm []); split; [simpl; auto|reflexivity].

Ltac sample_well_formed :=
  repeat split; simpl; repeat constructor; simpl; intuition discriminate.

Lemma remove_lower {A : Type} `{BlockScoped A} (t1 t2 : Z) (c : list A) :
  t2 <= t1 ->
  remove (block_index_gt t2) (remove (block_index_gt t1) c)
  = remove (block_index_gt t2) c.
Proof.
  intros Hle. unfold remove. apply filter_filter_weaker.
  intros d Hd. unfold block_index_gt in *.
  apply negb_true_iff in Hd. apply negb_true_iff.
  apply Z.ltb_ge in Hd. apply Z.ltb_ge. lia.
Qed.

Lemma remove_nothing_above {A : Type} `{BlockScoped A} (t : Z) (c : list A) :
  (forall d, In d c -> get_block_index d <= t) ->
  remove (block_index_gt t) c = c.
Proof.
  intros Hall. unfold remove. apply filter_all.
  intros d Hd. apply negb_true_iff. unfold block_index_gt.
  apply Z.ltb_ge. now apply Hall.
Qed.

(** Looking a block up by index after the blocks above [t] are gone. *)
Lemma find_one_after_cut (t i : Z) (blocks : list block) :
  find_one (block_index_is i) (remove (block_index_gt t) blocks)
  = if t <? i then None else find_one (block_index_is i) blocks.
Proof.
  destruct (Z.ltb_spec t i) as [Hlt|Hge].
  - apply find_one_none. intros d Hd. apply in_remove in Hd.
    destruct Hd as [_ Hd]. unfold block_index_gt in Hd.
    apply Z.ltb_ge in Hd. unfold block_index_is. apply Z.eqb_neq.
    unfold get_block_index, BlockScoped_block in Hd. lia.
  - apply find_one_remove. intros d Hd. unfold block_index_is in Hd.
    apply Z.eqb_eq in Hd. unfold block_index_gt.
    unfold get_block_index, BlockScoped_block. apply Z.ltb_ge. lia.
Qed.

Section RollbackMore.
Context {E : Type}.
Variable config : Config.
Variable hooks : list (Z -> E -> E).

(** X1: [rollback] returns exactly when its target is positive and is the
    index of a processed block; in every other case it raises. *)
Theorem rollback_returns_iff (t : Z) (w : World E) :
  (exists b w', rollback config hooks t w = Return b w') <-> rollback_pre t w.
Proof.
  split.
  - intros (b & w' & Hrun).
    destruct (Z.le_gt_cases t 0) as [Ht|Ht].
    + rewrite rollback_not_positive in Hrun by assumption. discriminate.
    + destruct (find_one (block_index_is t) (processed_blocks (mongo_db w)))
        as [b0|] eqn:Hf.
      * apply find_one_some in Hf. destruct Hf as [Hin Hb].
        split; [lia|]. exists b0. split; auto. now apply Z.eqb_eq in Hb.
      * rewrite rollback_no_block in Hrun by (auto; lia). discriminate.
  - intros [Ht Hex].
    destruct (find_one_block_index t _ Hex) as (b & Hb & _).
    eexists. eexists. apply rollback_run; eassumption.
Qed.

(** X2: the block a rollback returns is the first processed block with the
    target index, and it is still in [processed_blocks] afterwards;
    whatever [LATEST_BLOCK_INIT] is, it is not what is returned unless it
    is that block. *)
Theorem rollback_returns_target_block (t : Z) (w : World E) :
  rollback_pre t w ->
  exists b w',
    rollback config hooks t w = Return b w' /\
    find_one (block_index_is t) (processed_blocks (mongo_db w)) = Some b /\
    block_index b = t /\
    In b (processed_blocks (mongo_db w')).
Proof.
  intros [Ht Hex].
  destruct (find_one_block_index t _ Hex) as (b & Hb & Hbt).
  exists b. eexists. split; [apply rollback_run; eassumption|].
  simpl. repeat split; auto.
  apply in_remove. apply find_one_some in Hb. destruct Hb as [Hin _].
  split; auto. unfold block_index_gt, get_block_index, BlockScoped_block.
  apply Z.ltb_ge. lia.
Qed.

(** X3: a rollback writes to nothing but the five block-scoped
    collections and [tracked_assets]: the thirteen other collections and
    the supply of [ObjectId]s are as before; and it leaves the block-info
    cache empty. *)
Theorem rollback_other_collections (t : Z) (w : World E) :
  rollback_pre t w ->
  exists b w',
    rollback config hooks t w = Return b w' /\
    asset_market_info (mongo_db w') = asset_market_info (mongo_db w) /\
    pair_market_info (mongo_db w') = pair_market_info (mongo_db w) /\
    asset_pair_market_info (mongo_db w') = asset_pair_market_info (mongo_db w) /\
    asset_extended_info (mongo_db w') = asset_extended_info (mongo_db w) /\
    btc_open_orders (mongo_db w') = btc_open_orders (mongo_db w) /\
    wallet_stats (mongo_db w') = wallet_stats (mongo_db w) /\
    app_config (mongo_db w') = app_config (mongo_db w) /\
    preferences (mongo_db w') = preferences (mongo_db w) /\
    login_history (mongo_db w') = login_history (mongo_db w) /\
    chat_handles (mongo_db w') = chat_handles (mongo_db w) /\
    chat_history (mongo_db w') = chat_history (mongo_db w) /\
    feeds (mongo_db w') = feeds (mongo_db w) /\
    mempool (mongo_db w') = mempool (mongo_db w) /\
    next_oid w' = next_oid w /\
    blockinfo_cache w' = [].
Proof.
  intros [Ht Hex].
  destruct (find_one_block_index t _ Hex) as (b & Hb & _).
  eexists. eexists. split; [apply rollback_run; eassumption|].
  simpl. repeat split; reflexivity.
Qed.

(** X4: after a rollback, whatever the collection looked like, every
    tracked asset left is current at or before the target or has an empty
    history. *)
Theorem rollback_settles_assets (t : Z) (w : World E) :
  rollback_pre t w ->
  exists b w',
    rollback config hooks t w = Return b w' /\
    forall a, In a (tracked_assets (mongo_db w')) ->
              _at_block (current a) <= t \/ _history a = [].
Proof.
  intros [Ht Hex].
  destruct (find_one_block_index t _ Hex) as (b & Hb & _).
  eexists. eexists. split; [apply rollback_run; eassumption|].
  simpl. intros a Ha. apply pruned_assets_settled in Ha.
  destruct (Z.le_gt_cases (_at_block (current a)) t) as [Hle|Hgt];
    [now left|right; apply Ha; lia].
Qed.


(** X6: a rollback keeps [tracked_assets] well formed: one document per
    [_id], one per key, history entries under the key of their document. *)
Theorem rollback_keeps_well_formed (t : Z) (w : World E) :
  rollback_pre t w ->
  well_formed (tracked_assets (mongo_db w)) ->
  exists b w',
    rollback config hooks t w = Return b w' /\
    well_formed (tracked_assets (mongo_db w')).
Proof.
  intros [Ht Hex] Hwf.
  destruct (find_one_block_index t _ Hex) as (b & Hb & _).
  eexists. eexists. split; [apply rollback_run; eassumption|].
  simpl. rewrite pruned_assets_pointwise by assumption.
  apply (well_formed_flat_map t); auto.
  intros d Hd. now apply (reconstruct_left_of t _ d Hwf).
Qed.

(** What a rollback leaves under the key of a document of a well-formed
    collection. *)
Lemma pruned_assets_under_key (t : Z) (c : list tracked_asset) (a : tracked_asset) :
  well_formed c -> In a c ->
  filter (same_key a) (pruned_assets t c) = filter (same_key a) (reconstruct t a).
Proof.
  intros Hwf Ha. rewrite pruned_assets_pointwise by assumption.
  apply under_key_flat_map; auto; [apply Hwf|].
  intros d e Hd He.
  destruct (reconstruct_left_of t _ d Hwf Hd) as [Hnil|(e' & Hone & Hleft)].
  - rewrite Hnil in He. contradiction.
  - rewrite Hone in He. destruct He as [<-|[]]. apply Hleft.
Qed.

(** X7: in a well-formed [tracked_assets] (one document per [_id], one
    per key, history entries under the key of their document), a tracked
    asset that is current at or before the target is left exactly as it
    is, alone under its key. *)
Theorem rollback_keeps_earlier_asset (t : Z) (w : World E) (a : tracked_asset) :
  rollback_pre t w ->
  well_formed (tracked_assets (mongo_db w)) ->
  In a (tracked_assets (mongo_db w)) ->
  _at_block (current a) <= t ->
  exists b w',
    rollback config hooks t w = Return b w' /\
    find (same_key a) (tracked_assets (mongo_db w')) = [a].
Proof.
  intros [Ht Hex] Hwf Ha Hat.
  destruct (find_one_block_index t _ Hex) as (b & Hb & _).
  eexists. eexists. split; [apply rollback_run; eassumption|].
  simpl. unfold find. rewrite pruned_assets_under_key by assumption.
  unfold reconstruct. destruct (Z.ltb_spec t (_at_block (current a))); [lia|].
  simpl. unfold same_key. now rewrite String.eqb_refl.
Qed.

(** X8: in a well-formed [tracked_assets], a tracked asset above the
    target whose history is not empty and holds only versions above the
    target is removed: nothing is left under its key. *)
Theorem rollback_removes_later_asset (t : Z) (w : World E) (a : tracked_asset) :
  rollback_pre t w ->
  well_formed (tracked_assets (mongo_db w)) ->
  In a (tracked_assets (mongo_db w)) ->
  t < _at_block (current a) ->
  _history a <> [] ->
  Forall (fun v => t < _at_block v) (_history a) ->
  exists b w',
    rollback config hooks t w = Return b w' /\
    find (same_key a) (tracked_assets (mongo_db w')) = [].
Proof.
  intros [Ht Hex] Hwf Ha Hat Hne Hall.
  destruct (find_one_block_index t _ Hex) as (b & Hb & _).
  eexists. eexists. split; [apply rollback_run; eassumption|].
  simpl. unfold find. rewrite pruned_assets_under_key by assumption.
  unfold reconstruct, turn. destruct (Z.ltb_spec t (_at_block (current a))); [|lia].
  rewrite pop_history_exhaust by (auto; lia).
  destruct (_history a) as [|x h'] eqn:Hh; [congruence|].
  inversion Hall; subst.
  destruct (Z.ltb_spec t (_at_block x)); [reflexivity|lia].
Qed.

(** X9: in a well-formed [tracked_assets], a tracked asset above the
    target whose history is empty is not touched by the rollback: it
    stays, current above the target, alone under its key. *)
Theorem rollback_keeps_asset_without_history (t : Z) (w : World E)
    (a : tracked_asset) :
  rollback_pre t w ->
  well_formed (tracked_assets (mongo_db w)) ->
  In a (tracked_assets (mongo_db w)) ->
  t < _at_block (current a) ->
  _history a = [] ->
  exists b w',
    rollback config hooks t w = Return b w' /\
    find (same_key a) (tracked_assets (mongo_db w')) = [a].
Proof.
  intros [Ht Hex] Hwf Ha Hat Hh.
  destruct (find_one_block_index t _ Hex) as (b & Hb & _).
  eexists. eexists. split; [apply rollback_run; eassumption|].
  simpl. unfold find. rewrite pruned_assets_under_key by assumption.
  unfold reconstruct, turn. destruct (Z.ltb_spec t (_at_block (current a))); [|lia].
  rewrite Hh. simpl. unfold same_key. now rewrite String.eqb_refl.
Qed.

(** X10: on a well-formed [tracked_assets] a rollback invents nothing:
    every tracked asset it leaves has the [_id] and key of an asset that
    was there, a front part of that asset's history, and as current
    version either the one it had or one of its history entries at or
    before the target. *)
Theorem rollback_assets_come_from (t : Z) (w : World E) :
  rollback_pre t w ->
  well_formed (tracked_assets (mongo_db w)) ->
  exists b w',
    rollback config hooks t w = Return b w' /\
    forall e, In e (tracked_assets (mongo_db w')) ->
      exists d, In d (tracked_assets (mongo_db w)) /\ left_of t d e.
Proof.
  intros [Ht Hex] Hwf.
  destruct (find_one_block_index t _ Hex) as (b & Hb & _).
  eexists. eexists. split; [apply rollback_run; eassumption|].
  simpl. rewrite pruned_assets_pointwise by assumption.
  intros e He. apply in_flat_map in He. destruct He as (d & Hd & He).
  exists d. split; auto.
  destruct (reconstruct_left_of t _ d Hwf Hd) as [Hnil|(e' & Hone & Hleft)].
  - rewrite Hnil in He. contradiction.
  - rewrite Hone in He. destruct He as [<-|[]]. exact Hleft.
Qed.

(** X11: a rollback to the tip, with no record above the target and no
    asset above it that has a history, leaves the whole database as it
    is. *)
Theorem rollback_at_tip (t : Z) (w : World E) :
  rollback_pre t w ->
  at_tip t (mongo_db w) ->
  exists b w',
    rollback config hooks t w = Return b w' /\
    mongo_db w' = mongo_db w.
Proof.
  intros [Ht Hex] (H1 & H2 & H3 & H4 & H5 & H6).
  destruct (find_one_block_index t _ Hex) as (b & Hb & _).
  eexists. eexists. split; [apply rollback_run; eassumption|].
  simpl. rewrite !remove_nothing_above by assumption.
  rewrite pruned_assets_fixed by assumption.
  destruct (mongo_db w). reflexivity.
Qed.

(** X12: rolling back to [t1] and then further to [t2] leaves the five
    block-scoped collections, the counters and the cache as one rollback
    to [t2] does, and returns the same block. *)
Theorem rollback_then_lower (t1 t2 : Z) (w : World E) :
  rollback_pre t1 w ->
  rollback_pre t2 w ->
  t2 <= t1 ->
  exists b1 w1 b2 w2 w2',
    rollback config hooks t1 w = Return b1 w1 /\
    rollback config hooks t2 w1 = Return b2 w2 /\
    rollback config hooks t2 w = Return b2 w2' /\
    processed_blocks (mongo_db w2) = processed_blocks (mongo_db w2') /\
    balance_changes (mongo_db w2) = balance_changes (mongo_db w2') /\
    trades (mongo_db w2) = trades (mongo_db w2') /\
    asset_marketcap_history (mongo_db w2) = asset_marketcap_history (mongo_db w2') /\
    transaction_stats (mongo_db w2) = transaction_stats (mongo_db w2') /\
    state w2 = state w2' /\
    blockinfo_cache w2 = blockinfo_cache w2'.
Proof.
  intros [Ht1 Hex1] [Ht2 Hex2] Hle.
  destruct (find_one_block_index t1 _ Hex1) as (b1 & Hb1 & _).
  destruct (find_one_block_index t2 _ Hex2) as (b2 & Hb2 & _).
  exists b1. eexists. exists b2. eexists. eexists.
  split; [apply rollback_run; eassumption|].
  split.
  { apply rollback_run; auto. simpl.
    rewrite find_one_after_cut.
    destruct (Z.ltb_spec t1 t2); [lia|assumption]. }
  split; [apply rollback_run; eassumption|].
  simpl. rewrite !remove_lower by assumption.
  repeat split; reflexivity.
Qed.

End RollbackMore.

(** X2 on the sample world, target 200. *)
Lemma rollback_returns_target_block_witness :
  exists b w',
    rollback sample_config sample_hooks 200 sample_world = Return b w' /\
    find_one (block_index_is 200) (processed_blocks (mongo_db sample_world)) = Some b /\
    block_index b = 200 /\
    In b (processed_blocks (mongo_db w')).
Proof.
  apply (rollback_returns_target_block sample_config sample_hooks 200 sample_world).
  sample_block 200 20000.
Defined.

(** X3 on the sample world, target 200. *)
Lemma rollback_other_collections_witness :
  exists b w',
    rollback sample_config sample_hooks 200 sample_world = Return b w' /\
    asset_market_info (mongo_db w') = asset_market_info (mongo_db sample_world) /\
    pair_market_info (mongo_db w') = pair_market_info (mongo_db sample_world) /\
    asset_pair_market_info (mongo_db w')
      = asset_pair_market_info (mongo_db sample_world) /\
    asset_extended_info (mongo_db w') = asset_extended_info (mongo_db sample_world) /\
    btc_open_orders (mongo_db w') = btc_open_orders (mongo_db sample_world) /\
    wallet_stats (mongo_db w') = wallet_stats (mongo_db sample_world) /\
    app_config (mongo_db w') = app_config (mongo_db sample_world) /\
    preferences (mongo_db w') = preferences (mongo_db sample_world) /\
    login_history (mongo_db w') = login_history (mongo_db sample_world) /\
    chat_handles (mongo_db w') = chat_handles (mongo_db sample_world) /\
    chat_history (mongo_db w') = chat_history (mongo_db sample_world) /\
    feeds (mongo_db w') = feeds (mongo_db sample_world) /\
    mempool (mongo_db w') = mempool (mongo_db sample_world) /\
    next_oid w' = next_oid sample_world /\
    blockinfo_cache w' = [].
Proof.
  apply (rollback_other_collections sample_config sample_hooks 200 sample_world).
  sample_block 200 20000.
Defined.

(** X4 on the sample world, target 200. *)
Lemma rollback_settles_assets_witness :
  exists b w',
    rollback sample_config sample_hooks 200 sample_world = Return b w' /\
    forall a, In a (tracked_assets (mongo_db w')) ->
              _at_block (current a) <= 200 \/ _history a = [].
Proof.
  apply (rollback_settles_assets sample_config sample_hooks 200 sample_world).
  sample_block 200 20000.
Defined.


(** X6 on the sample world, target 200. *)
Lemma rollback_keeps_well_formed_witness :
  exists b w',
    rollback sample_config sample_hooks 200 sample_world = Return b w' /\
    well_formed (tracked_assets (mongo_db w')).
Proof.
  apply (rollback_keeps_well_formed sample_config sample_hooks 200 sample_world).
  - sample_block 200 20000.
  - sample_well_formed.
Defined.

(** X7 on the sample world: entity B, current at block 50, target 200. *)
Lemma rollback_keeps_earlier_asset_witness :
  exists b w',
    rollback sample_config sample_hooks 200 sample_world = Return b w' /\
    find (same_key entity_B) (tracked_assets (mongo_db w')) = [entity_B].
Proof.
  apply (rollback_keeps_earlier_asset sample_config sample_hooks 200 sample_world
           entity_B).
  - sample_block 200 20000.
  - sample_well_formed.
  - simpl. auto.
  - simpl. lia.
Defined.

(** X8 on the sample world: entity A, whose one earlier version is at
    block 100, target 10. *)
Lemma rollback_removes_later_asset_witness :
  exists b w',
    rollback sample_config sample_hooks 10 sample_world = Return b w' /\
    find (same_key entity_A) (tracked_assets (mongo_db w')) = [].
Proof.
  apply (rollback_removes_later_asset sample_config sample_hooks 10 sample_world
           entity_A).
  - sample_block 10 1000.
  - sample_well_formed.
  - simpl. auto.
  - simpl. lia.
  - simpl. discriminate.
  - simpl. repeat constructor.
Defined.

(** X9 on the sample world: entity B, no history, target 10. *)
Lemma rollback_keeps_asset_without_history_witness :
  exists b w',
    rollback sample_config sample_hooks 10 sample_world = Return b w' /\
    find (same_key entity_B) (tracked_assets (mongo_db w')) = [entity_B].
Proof.
  apply (rollback_keeps_asset_without_history sample_config sample_hooks 10
           sample_world entity_B).
  - sample_block 10 1000.
  - sample_well_formed.
  - simpl. auto.
  - simpl. lia.
  - reflexivity.
Defined.

(** X10 on the sample world, target 200. *)
Lemma rollback_assets_come_from_witness :
  exists b w',
    rollback sample_config sample_hooks 200 sample_world = Return b w' /\
    forall e, In e (tracked_assets (mongo_db w')) ->
      exists d, In d (tracked_assets (mongo_db sample_world)) /\ left_of 200 d e.
Proof.
  apply (rollback_assets_come_from sample_config sample_hooks 200 sample_world).
  - sample_block 200 20000.
  - sample_well_formed.
Defined.

(** X11 on the sample world, target 300, its highest block. *)
Lemma rollback_at_tip_witness :
  exists b w',
    rollback sample_config sample_hooks 300 sample_world = Return b w' /\
    mongo_db w' = mongo_db sample_world.
Proof.
  apply (rollback_at_tip sample_config sample_hooks 300 sample_world).
  - sample_block 300 30000.
  - repeat split; intros d Hd; simpl in Hd;
      repeat (destruct Hd as [Hd|Hd]; [subst d; simpl; try lia|]);
      try contradiction; intros Hat; simpl in Hat; lia.
Defined.

(** X12 on the sample world: to block 200, then to block 100. *)
Lemma rollback_then_lower_witness :
  exists b1 w1 b2 w2 w2',
    rollback sample_config sample_hooks 200 sample_world = Return b1 w1 /\
    rollback sample_config sample_hooks 100 w1 = Return b2 w2 /\
    rollback sample_config sample_hooks 100 sample_world = Return b2 w2' /\
    processed_blocks (mongo_db w2) = processed_blocks (mongo_db w2') /\
    balance_changes (mongo_db w2) = balance_changes (mongo_db w2') /\
    trades (mongo_db w2) = trades (mongo_db w2') /\
    asset_marketcap_history (mongo_db w2) = asset_marketcap_history (mongo_db w2') /\
    transaction_stats (mongo_db w2) = transaction_stats (mongo_db w2') /\
    state w2 = state w2' /\
    blockinfo_cache w2 = blockinfo_cache w2'.
Proof.
  apply (rollback_then_lower sample_config sample_hooks 200 100 sample_world).
  - sample_block 200 20000.
  - sample_block 100 10000.
  - lia.
Defined.

(** On [tracked_assets] the two routes can part: entity A, restored at
    block 200 to its version of block 100 with no history left, survives
    a further rollback to block 10, while a rollback straight to block 10
    removes it. *)
Lemma rollback_in_two_steps_differs :
  exists b1 w1 b2 w2 w2',
    rollback sample_config sample_hooks 200 sample_world = Return b1 w1 /\
    rollback sample_config sample_hooks 10 w1 = Return b2 w2 /\
    rollback sample_config sample_hooks 10 sample_world = Return b2 w2' /\
    tracked_assets (mongo_db w2) = [entity_A_restored; entity_B] /\
    tracked_assets (mongo_db w2') = [entity_B].
Proof.
  do 5 eexists.
  split; [vm_compute; reflexivity|].
  split; [vm_compute; reflexivity|].
  split; [vm_compute; reflexivity|].
  split; reflexivity.
Qed.

(** * Beyond the contract: the history loop, lookups, reset *)

(** X13: the history loop, given at least as many turns as the history is
    long, ends in one of three ways: on an empty history nothing is
    popped; when every version is above the target the history is
    emptied and the oldest version is the last one popped; otherwise it
    stops at the newest version at or before the target and leaves the
    versions before it. *)
Theorem pop_history_contract (t : Z) (h : list version) (fuel : nat) :
  (List.length h <= fuel)%nat ->
  (h = [] /\ pop_history fuel t h None = (None, [])) \/
  (exists x h', h = x :: h' /\ Forall (fun y => t < _at_block y) h /\
                pop_history fuel t h None = (Some x, [])) \/
  (exists h1 v h2, h = h1 ++ v :: h2 /\ _at_block v <= t /\
                   Forall (fun x => t < _at_block x) h2 /\
                   pop_history fuel t h None = (Some v, h1)).
Proof.
  intros Hfuel.
  destruct (history_shape t h) as [Hall|(h1 & v & h2 & Heq & Hv & Hall)].
  - destruct h as [|x h'].
    + left. split; auto. destruct fuel; reflexivity.
    + right. left. exists x, h'. repeat split; auto.
      now rewrite pop_history_exhaust.
  - right. right. exists h1, v, h2. repeat split; auto.
    subst h. apply pop_history_break; auto.
    rewrite length_app in Hfuel. simpl in Hfuel. lia.
Qed.

(** X13 on the history of entity A with one more version, target 200. *)
Lemma pop_history_contract_witness :
  ([mk_version "A" 100 []; mk_version "A" 250 []] = [] /\
   pop_history 5 200 [mk_version "A" 100 []; mk_version "A" 250 []] None = (None, [])) \/
  (exists x h', [mk_version "A" 100 []; mk_version "A" 250 []] = x :: h' /\
                Forall (fun y => 200 < _at_block y)
                       [mk_version "A" 100 []; mk_version "A" 250 []] /\
                pop_history 5 200 [mk_version "A" 100 []; mk_version "A" 250 []] None
                = (Some x, [])) \/
  (exists h1 v h2, [mk_version "A" 100 []; mk_version "A" 250 []] = h1 ++ v :: h2 /\
                   _at_block v <= 200 /\
                   Forall (fun x => 200 < _at_block x) h2 /\
                   pop_history 5 200 [mk_version "A" 100 []; mk_version "A" 250 []] None
                   = (Some v, h1)).
Proof.
  apply (pop_history_contract 200 [mk_version "A" 100 []; mk_version "A" 250 []] 5).
  simpl. lia.
Defined.

Section Lookups.
Context {E : Type}.
Variable config : Config.
Variable hooks : list (Z -> E -> E).

Lemma get_block_time_run (i : Z) (w : World E) :
  get_block_time i w
  = Return (option_map block_time
              (find_one (block_index_is i) (processed_blocks (mongo_db w)))) w.
Proof. reflexivity. Qed.

(** The first document a [find_one] returns: none before it matches. *)
Lemma find_one_first {A : Type} (q : A -> bool) (c : list A) (d : A) :
  find_one q c = Some d ->
  exists l1 l2, c = l1 ++ d :: l2 /\ (forall x, In x l1 -> q x = false) /\
                q d = true.
Proof.
  induction c as [|x c IH]; simpl; intros Hf; [discriminate|].
  destruct (q x) eqn:Hq.
  - inversion Hf; subst. exists [], c. repeat split; auto. intros y [].
  - destruct (IH Hf) as (l1 & l2 & -> & Hnone & Hd).
    exists (x :: l1), l2. repeat split; auto.
    intros y [<-|Hy]; auto.
Qed.

(** X14: for an index that fits a query, [get_block_time] returns and
    leaves the world alone; what it returns is [None] exactly when no
    processed block has the index, and otherwise the time of the first
    processed block, in natural order, with that index. *)
Theorem get_block_time_spec (i : Z) (w : World E) :
  fits_int64 i ->
  exists r,
    get_block_time i w = Return r w /\
    match r with
    | None => forall b, In b (processed_blocks (mongo_db w)) -> block_index b <> i
    | Some tm =>
        exists l1 b l2,
          processed_blocks (mongo_db w) = l1 ++ b :: l2 /\
          (forall b', In b' l1 -> block_index b' <> i) /\
          block_index b = i /\ block_time b = tm
    end.
Proof.
  intros _. rewrite get_block_time_run.
  destruct (find_one (block_index_is i) (processed_blocks (mongo_db w))) as [b|] eqn:Hf.
  - exists (Some (block_time b)). split; auto.
    apply find_one_first in Hf. destruct Hf as (l1 & l2 & Heq & Hnone & Hb).
    exists l1, b, l2. repeat split; auto.
    + intros b' Hb'. specialize (Hnone b' Hb'). now apply Z.eqb_neq in Hnone.
    + now apply Z.eqb_eq in Hb.
  - exists None. split; auto. intros b Hb.
    rewrite find_one_none in Hf. specialize (Hf b Hb).
    now apply Z.eqb_neq in Hf.
Qed.

(** X15: after a rollback to [t], [get_block_time] answers [None] for
    every index above [t] and what it answered before for every index at
    or below [t]. *)
Theorem get_block_time_after_rollback (t : Z) (w : World E) :
  rollback_pre t w ->
  exists b w',
    rollback config hooks t w = Return b w' /\
    forall i r, get_block_time i w = Return r w ->
                get_block_time i w' = Return (if t <? i then None else r) w'.
Proof.
  intros [Ht Hex].
  destruct (find_one_block_index t _ Hex) as (b & Hb & _).
  eexists. eexists. split; [apply rollback_run; eassumption|].
  intros i r Hr. rewrite get_block_time_run in *. simpl.
  rewrite find_one_after_cut. inversion Hr; subst.
  destruct (t <? i); reflexivity.
Qed.

(** X16: for dates that fit a query, [get_block_indexes_for_dates]
    raises in one case only, a given [end_dt] with no processed block at
    all, where it raises [TypeError] and leaves the world alone; in every
    other case it returns. *)
Theorem block_range_raises_or_returns (start_dt end_dt : option Z) (w : World E) :
  date_fits start_dt ->
  date_fits end_dt ->
  (end_dt <> None /\ processed_blocks (mongo_db w) = [] /\
   get_block_indexes_for_dates config start_dt end_dt w = Raise TypeError w) \/
  ((end_dt = None \/ processed_blocks (mongo_db w) <> []) /\
   exists s e, get_block_indexes_for_dates config start_dt end_dt w = Return (s, e) w).
Proof.
  intros _ _. destruct end_dt as [e|].
  - destruct (processed_blocks (mongo_db w)) as [|b l] eqn:Hblocks.
    + left. repeat split; [discriminate|].
      now apply get_block_indexes_for_dates_empty.
    + right. split; [right; discriminate|].
      destruct (block_indexes_lookup config start_dt (Some e) w) as (s & e' & Hrun & _).
      * right. rewrite Hblocks. discriminate.
      * eauto.
  - right. split; [now left|].
    destruct (block_indexes_lookup config start_dt None w) as (s & e' & Hrun & _);
      [now left|eauto].
Qed.

End Lookups.

(** X15 on the sample world, target 200. *)
Lemma get_block_time_after_rollback_witness :
  exists b w',
    rollback sample_config sample_hooks 200 sample_world = Return b w' /\
    forall i r, get_block_time i sample_world = Return r sample_world ->
                get_block_time i w' = Return (if 200 <? i then None else r) w'.
Proof.
  apply (get_block_time_after_rollback sample_config sample_hooks 200 sample_world).
  sample_block 200 20000.
Defined.

(** X14 on the sample world, index 200. *)
Lemma get_block_time_spec_witness :
  exists r,
    get_block_time 200 sample_world = Return r sample_world /\
    match r with
    | None => forall b, In b (processed_blocks (mongo_db sample_world)) ->
                        block_index b <> 200
    | Some tm =>
        exists l1 b l2,
          processed_blocks (mongo_db sample_world) = l1 ++ b :: l2 /\
          (forall b', In b' l1 -> block_index b' <> 200) /\
          block_index b = 200 /\ block_time b = tm
    end.
Proof.
  apply (get_block_time_spec 200 sample_world).
  unfold fits_int64. lia.
Defined.

(** X16 on the sample world. *)
Lemma block_range_raises_or_returns_witness :
  (Some 25000 <> None /\ processed_blocks (mongo_db sample_world) = [] /\
   get_block_indexes_for_dates sample_config (Some 15000) (Some 25000) sample_world
     = Raise TypeError sample_world) \/
  ((Some 25000 = None \/ processed_blocks (mongo_db sample_world) <> []) /\
   exists s e,
     get_block_indexes_for_dates sample_config (Some 15000) (Some 25000) sample_world
       = Return (s, e) sample_world).
Proof.
  apply (block_range_raises_or_returns sample_config (Some 15000) (Some 25000)
           sample_world).
  - simpl. unfold fits_int64. lia.
  - simpl. unfold fits_int64. lia.
Defined.

Section ResetMore.
Context {E : Type}.
Variable config : Config.
Variable hooks : list (Z -> E -> E).

(** The world [reset_db_state] leaves, [_id]s included. *)
Lemma reset_db_state_run_exact (w : World E) :
  exists n,
    reset_db_state config w =
    Return
      (mk_app_config (app_config_id w) (DB_VERSION config) (TESTNET config)
                     None None None (BLOCK_FIRST config))
      (mk_world
         (mk_db []
                [mk_asset n (base_asset config (XCP config)) [];
                 mk_asset (S n) (base_asset config (BTC config)) []]
                [] [] [] []
                []
                (asset_pair_market_info (mongo_db w))
                [] [] [] []
                (mk_app_config (app_config_id w) (DB_VERSION config) (TESTNET config)
                               None None None (BLOCK_FIRST config)
                 :: tl (app_config (mongo_db w)))
                (preferences (mongo_db w))
                (login_history (mongo_db w))
                (chat_handles (mongo_db w))
                (chat_history (mongo_db w))
                []
                (mempool (mongo_db w)))
         (mk_state 0 (-1) (caught_up (state w)))
         (blockinfo_cache w)
         (hook_state w)
         (S (S n))).
Proof.
  destruct w as [[? ? ? ? ? ? ? ? ? ? ? ? ac ? ? ? ? ? ?] st cache e n].
  unfold reset_db_state, app_config_upsert, tracked_assets_insert, new_ObjectId,
    for_each, drop, app_config_id.
  destruct ac as [|d rest].
  - exists (S n). run_writes. reflexivity.
  - exists n. run_writes. reflexivity.
Qed.

(** X17: [reset_db_state] never touches [asset_pair_market_info],
    [mempool], [preferences], [login_history], [chat_handles] or
    [chat_history], nor the block-info cache, the caught-up flag or what
    the hooks own. *)
Theorem reset_db_state_untouched (w : World E) :
  exists ac w',
    reset_db_state config w = Return ac w' /\
    asset_pair_market_info (mongo_db w') = asset_pair_market_info (mongo_db w) /\
    mempool (mongo_db w') = mempool (mongo_db w) /\
    preferences (mongo_db w') = preferences (mongo_db w) /\
    login_history (mongo_db w') = login_history (mongo_db w) /\
    chat_handles (mongo_db w') = chat_handles (mongo_db w) /\
    chat_history (mongo_db w') = chat_history (mongo_db w) /\
    blockinfo_cache w' = blockinfo_cache w /\
    caught_up (state w') = caught_up (state w) /\
    hook_state w' = hook_state w.
Proof.
  destruct (reset_db_state_run_exact w) as (n & Hrun).
  eexists. eexists. split; [exact Hrun|].
  simpl. repeat split; reflexivity.
Qed.

(** X18: besides the block-scoped collections, [reset_db_state] leaves
    [asset_market_info], [pair_market_info], [btc_open_orders],
    [asset_extended_info], [wallet_stats] and [feeds] empty. *)
Theorem reset_db_state_dropped (w : World E) :
  exists ac w',
    reset_db_state config w = Return ac w' /\
    asset_market_info (mongo_db w') = [] /\
    pair_market_info (mongo_db w') = [] /\
    btc_open_orders (mongo_db w') = [] /\
    asset_extended_info (mongo_db w') = [] /\
    wallet_stats (mongo_db w') = [] /\
    feeds (mongo_db w') = [].
Proof.
  destruct (reset_db_state_run_exact w) as (n & Hrun).
  eexists. eexists. split; [exact Hrun|].
  simpl. repeat split; reflexivity.
Qed.

(** X19: when the two native assets have different names,
    [reset_db_state] leaves [tracked_assets] well formed. *)
Theorem reset_db_state_well_formed (w : World E) :
  XCP config <> BTC config ->
  exists ac w',
    reset_db_state config w = Return ac w' /\
    well_formed (tracked_assets (mongo_db w')).
Proof.
  intros Hneq.
  destruct (reset_db_state_run_exact w) as (n & Hrun).
  eexists. eexists. split; [exact Hrun|].
  simpl. repeat split.
  - repeat constructor; simpl; [|tauto]. intros [Heq|[]]. lia.
  - repeat constructor; simpl; [|tauto]. intros [Heq|[]].
    unfold asset_name in Heq. simpl in Heq. congruence.
  - repeat constructor.
Qed.


(** X21: right after [reset_db_state], [get_block_indexes_for_dates]
    without an end date returns [(BLOCK_FIRST, 0)] whatever the start
    date, and [get_block_time] returns [None] for every index. *)
Theorem reset_then_lookups (w : World E) :
  exists ac w',
    reset_db_state config w = Return ac w' /\
    (forall start_dt,
       get_block_indexes_for_dates config start_dt None w'
       = Return (BLOCK_FIRST config, 0) w') /\
    (forall i, get_block_time i w' = Return None w').
Proof.
  destruct (reset_db_state_run_exact w) as (n & Hrun).
  eexists. eexists. split; [exact Hrun|].
  split.
  - intros [s|]; reflexivity.
  - intros i. reflexivity.
Qed.

(** X22: [reset_db_state] called again right after itself returns the
    same [app_config] document and leaves the same database up to the
    [_id]s of the two genesis assets, the same counters and the same
    cache. *)
Theorem reset_db_state_twice (w : World E) :
  exists ac w1 w2,
    reset_db_state config w = Return ac w1 /\
    reset_db_state config w1 = Return ac w2 /\
    without_asset_ids (mongo_db w2) = without_asset_ids (mongo_db w1) /\
    state w2 = state w1 /\
    blockinfo_cache w2 = blockinfo_cache w1.
Proof.
  destruct (reset_db_state_run_exact w) as (n & Hrun).
  match type of Hrun with
  | _ = Return ?ac ?w1 =>
      destruct (reset_db_state_run_exact w1) as (n' & Hrun'); exists ac, w1
  end.
  eexists. split; [exact Hrun|].
  split; [exact Hrun'|].
  repeat split; reflexivity.
Qed.

(** X23: the [app_config] document [reset_db_state] writes and returns
    keeps the [_id] of the first document that was there (a fresh one
    when there was none), records [DB_VERSION] and [TESTNET], clears the
    three counterpartyd markers and sets [last_block_assets_compiled] to
    [BLOCK_FIRST]. *)
Theorem reset_db_state_app_config (w : World E) :
  exists ac w',
    reset_db_state config w = Return ac w' /\
    ac = mk_app_config (app_config_id w) (DB_VERSION config) (TESTNET config)
                       None None None (BLOCK_FIRST config) /\
    app_config (mongo_db w') = ac :: tl (app_config (mongo_db w)).
Proof.
  destruct (reset_db_state_run_exact w) as (n & Hrun).
  eexists. eexists. split; [exact Hrun|].
  split; reflexivity.
Qed.

End ResetMore.

(** X19 on the sample configuration. *)
Lemma reset_db_state_well_formed_witness :
  exists ac w',
    reset_db_state sample_config sample_world = Return ac w' /\
    well_formed (tracked_assets (mongo_db w')).
Proof.
  apply (reset_db_state_well_formed sample_config sample_world).
  simpl. discriminate.
Defined.

Section StaleCounter.
Context {E : Type}.
Variable config : Config.
Variable hooks : list (Z -> E -> E).

(** X24: after a rollback, and until the caller stores the block it
    returned, [get_block_indexes_for_dates] without dates still answers
    with the latest-processed-block counter of before the rollback as its
    end, whatever blocks are left. *)
Theorem block_range_after_rollback (t : Z) (w : World E) :
  rollback_pre t w ->
  exists b w',
    rollback config hooks t w = Return b w' /\
    get_block_indexes_for_dates config None None w'
    = Return (BLOCK_FIRST config, my_latest_block (state w)) w'.
Proof.
  intros [Ht Hex].
  destruct (find_one_block_index t _ Hex) as (b & Hb & _).
  eexists. eexists. split; [apply rollback_run; eassumption|].
  reflexivity.
Qed.

End StaleCounter.

(** X24 on the sample world: rolled back to block 100, the range still
    ends at 300. *)
Lemma block_range_after_rollback_witness :
  exists b w',
    rollback sample_config sample_hooks 100 sample_world = Return b w' /\
    get_block_indexes_for_dates sample_config None None w'
    = Return (BLOCK_FIRST sample_config, my_latest_block (state sample_world)) w'.
Proof.
  apply (block_range_after_rollback sample_config sample_hooks 100 sample_world).
  sample_block 100 10000.
Defined.
